(** * Order ledger service (shein-manager): the Express handlers of
    [index.js] and of the Lempiras-only variant, over a model of the
    JavaScript values they handle and of the relational store they query.

    Layout:
    - [Js]: JavaScript values, numbers, coercions and the built-ins the
      handlers call ([parseFloat], [+], [*], [toFixed], truthiness);
    - [Db]: the two tables, the SQL statements of the program and a session
      with transactions;
    - [Express]: requests, responses and route dispatch;
    - [Ledger]: [index.js];
    - [Lempiras]: the simplified variant (routes in Lempiras only);
    - the properties. *)

From Stdlib Require Import ZArith List String Ascii Bool Lia DecimalString.
From Stdlib Require Import Permutation.
Import ListNotations.
Open Scope string_scope.
Open Scope Z_scope.
Set Warnings "-register-all".

(* ===================================================================== *)
(** * JavaScript values *)
(* ===================================================================== *)

Module Js.

(** Numbers.  Every number the program meets comes from a JSON literal, a
    decimal constant of the source, or sums and products of those, so a
    finite number is kept as an exact decimal [m * 10^e] in normal form
    ([m] not a multiple of ten, zero as [Fin 0 0]); the rounding of
    binary64 is not part of this model, and neither is the sign of zero. *)
Inductive number : Type :=
| NaN
| PosInf
| NegInf
| Fin (m : Z) (e : Z).

Fixpoint strip10 (fuel : nat) (m e : Z) : Z * Z :=
  match fuel with
  | O => (m, e)
  | S f => if m mod 10 =? 0 then strip10 f (m / 10) (e + 1) else (m, e)
  end.

Definition mk (m e : Z) : number :=
  if m =? 0 then Fin 0 0
  else let (m', e') := strip10 (Z.to_nat (Z.log2 (Z.abs m))) m e in Fin m' e'.

Definition of_Z (z : Z) : number := mk z 0.

Definition num_neg (x : number) : number :=
  match x with
  | NaN => NaN
  | PosInf => NegInf
  | NegInf => PosInf
  | Fin m e => Fin (- m) e
  end.

Definition num_add (x y : number) : number :=
  match x, y with
  | NaN, _ | _, NaN => NaN
  | PosInf, NegInf | NegInf, PosInf => NaN
  | PosInf, _ | _, PosInf => PosInf
  | NegInf, _ | _, NegInf => NegInf
  | Fin m1 e1, Fin m2 e2 =>
      let e := Z.min e1 e2 in
      mk (m1 * 10 ^ (e1 - e) + m2 * 10 ^ (e2 - e)) e
  end.

Definition num_sgn (x : number) : Z :=
  match x with
  | NaN => 0
  | PosInf => 1
  | NegInf => -1
  | Fin m _ => Z.sgn m
  end.

Definition num_mul (x y : number) : number :=
  match x, y with
  | NaN, _ | _, NaN => NaN
  | Fin m1 e1, Fin m2 e2 => mk (m1 * m2) (e1 + e2)
  | _, _ =>
      match num_sgn x * num_sgn y with
      | 0 => NaN
      | Zpos _ => PosInf
      | Zneg _ => NegInf
      end
  end.

(** [x > 0] on numbers ([NaN > 0] is false). *)
Definition num_gt0 (x : number) : bool := 0 <? num_sgn x.

(** ** Decimal digits *)

Definition digits_of_pos (p : positive) : string :=
  NilZero.string_of_uint (Pos.to_uint p).

Definition digits_of_Z (z : Z) : string :=
  match z with
  | Z0 => "0"
  | Zpos p => digits_of_pos p
  | Zneg p => "-" ++ digits_of_pos p
  end.

Fixpoint zeros (n : nat) : string :=
  match n with
  | O => ""
  | S k => String "0" (zeros k)
  end.

Fixpoint take (n : nat) (s : string) : string :=
  match n, s with
  | S k, String c r => String c (take k r)
  | _, _ => ""
  end.

Fixpoint drop (n : nat) (s : string) : string :=
  match n, s with
  | S k, String _ r => drop k r
  | _, _ => s
  end.

(** Number::toString(x) for a positive finite [m * 10^e]: with [k] digits
    and [n = k + e], plain digits when [k <= n <= 21], a decimal point
    inside when [0 < n <= 21], leading [0.00] when [-6 < n <= 0], and the
    exponent form otherwise. *)
Definition pos_to_string (m : positive) (e : Z) : string :=
  let s := digits_of_pos m in
  let k := Z.of_nat (String.length s) in
  let n := k + e in
  if (k <=? n) && (n <=? 21) then s ++ zeros (Z.to_nat (n - k))
  else if (0 <? n) && (n <=? 21) then
    take (Z.to_nat n) s ++ "." ++ drop (Z.to_nat n) s
  else if (-6 <? n) && (n <=? 0) then "0." ++ zeros (Z.to_nat (- n)) ++ s
  else
    let x := n - 1 in
    let sg := if x <? 0 then "-" else "+" in
    let mant := if k =? 1 then s else take 1 s ++ "." ++ drop 1 s in
    mant ++ "e" ++ sg ++ digits_of_Z (Z.abs x).

Definition num_to_string (x : number) : string :=
  match x with
  | NaN => "NaN"
  | PosInf => "Infinity"
  | NegInf => "-Infinity"
  | Fin Z0 _ => "0"
  | Fin (Zpos m) e => pos_to_string m e
  | Fin (Zneg m) e => "-" ++ pos_to_string m e
  end.

(** Number.prototype.toFixed(2): [NaN] and magnitudes from [1e21] print as
    by toString; otherwise the integer [n] nearest to [100 * |x|] (the
    larger one on a tie) is printed with a point before its last two
    digits, after a minus sign when [x < 0]. *)
Definition round_half_up_100 (m : Z) (e : Z) : Z :=
  (* m > 0; the integer nearest to m * 10^(e+2), ties upwards *)
  if 0 <=? e + 2 then m * 10 ^ (e + 2)
  else (2 * m + 10 ^ (- (e + 2))) / (2 * 10 ^ (- (e + 2))).

Definition fixed2_of_cents (n : Z) : string :=
  let s := digits_of_Z n in
  let s := zeros (3 - String.length s) ++ s in
  let k := (String.length s - 2)%nat in
  take k s ++ "." ++ drop k s.

Definition toFixed2 (x : number) : string :=
  match x with
  | Fin m e =>
      let a := Z.abs m in
      if (a =? 0) then "0.00"
      else if 21 <? Z.of_nat (String.length (digits_of_Z a)) + e
      then num_to_string x
      else (if m <? 0 then "-" else "") ++ fixed2_of_cents (round_half_up_100 a e)
  | _ => num_to_string x
  end.

(** ** Reading numbers from text *)

(** StrWhiteSpaceChar, as far as one-byte characters go. *)
Definition is_ws (c : ascii) : bool :=
  let n := nat_of_ascii c in
  ((9 <=? n) && (n <=? 13))%nat || (n =? 32)%nat.

Definition is_digit (c : ascii) : bool :=
  let n := nat_of_ascii c in ((48 <=? n) && (n <=? 57))%nat.

Definition digit_val (c : ascii) : Z := Z.of_nat (nat_of_ascii c) - 48.

Fixpoint ltrim (s : string) : string :=
  match s with
  | String c r => if is_ws c then ltrim r else s
  | EmptyString => s
  end.

Fixpoint rtrim (s : string) : string :=
  match s with
  | EmptyString => EmptyString
  | String c r =>
      match rtrim r with
      | EmptyString => if is_ws c then EmptyString else String c EmptyString
      | r' => String c r'
      end
  end.

(** The longest run of decimal digits at the head of [s]: its value, its
    length, and what follows. *)
Fixpoint read_digits (acc : Z) (len : nat) (s : string) : Z * nat * string :=
  match s with
  | String c r =>
      if is_digit c then read_digits (10 * acc + digit_val c) (S len) r
      else (acc, len, s)
  | EmptyString => (acc, len, s)
  end.

Definition read_sign (s : string) : Z * string :=
  match s with
  | String "+" r => (1, r)
  | String "-" r => (-1, r)
  | _ => (1, s)
  end.

(** ExponentPart: [e] or [E], an optional sign, at least one digit; text
    that does not complete one is left unread. *)
Definition read_exponent (s : string) : Z * string :=
  match s with
  | String c r =>
      if (Ascii.eqb c "e" || Ascii.eqb c "E")%bool then
        let (sg, r1) := read_sign r in
        let '(x, len, r2) := read_digits 0 0 r1 in
        match len with
        | O => (0, s)
        | _ => (sg * x, r2)
        end
      else (0, s)
  | EmptyString => (0, s)
  end.

(** A StrDecimalLiteral at the head of [s], if there is one, and the rest. *)
Definition read_decimal (s : string) : option (number * string) :=
  let (sg, s1) := read_sign s in
  if prefix "Infinity" s1
  then Some (if sg <? 0 then NegInf else PosInf, drop 8 s1)
  else
    let '(ip, ilen, s2) := read_digits 0 0 s1 in
    let '(m, flen, s3) :=
      match s2 with
      | String "." r =>
          let '(m, flen, r') := read_digits ip 0 r in
          (* a lone point, with no digit on either side, is not a number *)
          match ilen, flen with
          | O, O => (ip, O, s2)
          | _, _ => (m, flen, r')
          end
      | _ => (ip, O, s2)
      end in
    match ilen, flen with
    | O, O => None
    | _, _ =>
        let (x, s4) := read_exponent s3 in
        Some (mk (sg * m) (x - Z.of_nat flen), s4)
    end.

(** Digits in a radix of 2, 8 or 16, for the literals [0b], [0o], [0x]. *)
Definition radix_digit (radix : Z) (c : ascii) : option Z :=
  let n := Z.of_nat (nat_of_ascii c) in
  let v := if (48 <=? n) && (n <=? 57) then n - 48
           else if (97 <=? n) && (n <=? 102) then n - 87
           else if (65 <=? n) && (n <=? 70) then n - 55
           else radix in
  if v <? radix then Some v else None.

Fixpoint read_radix (radix : Z) (acc : Z) (s : string) : option Z :=
  match s with
  | EmptyString => Some acc
  | String c r =>
      match radix_digit radix c with
      | Some v => read_radix radix (radix * acc + v) r
      | None => None
      end
  end.

Definition radix_literal (radix : Z) (s : string) : number :=
  match s with
  | EmptyString => NaN
  | _ => match read_radix radix 0 s with
         | Some z => of_Z z
         | None => NaN
         end
  end.

(** StringToNumber: the whole text, trimmed, must be one numeric literal;
    the empty text is [0]. *)
Definition string_to_number (s : string) : number :=
  match rtrim (ltrim s) with
  | EmptyString => of_Z 0
  | String "0" (String c r) as t =>
      if (Ascii.eqb c "x" || Ascii.eqb c "X")%bool then radix_literal 16 r
      else if (Ascii.eqb c "o" || Ascii.eqb c "O")%bool then radix_literal 8 r
      else if (Ascii.eqb c "b" || Ascii.eqb c "B")%bool then radix_literal 2 r
      else match read_decimal t with
           | Some (x, EmptyString) => x
           | _ => NaN
           end
  | t => match read_decimal t with
         | Some (x, EmptyString) => x
         | _ => NaN
         end
  end.

(** parseFloat on text: leading white space is skipped and the longest
    decimal literal at the head is read; [NaN] when there is none. *)
Definition parse_float_string (s : string) : number :=
  match read_decimal (ltrim s) with
  | Some (x, _) => x
  | None => NaN
  end.

(** ** Values *)

Inductive JsVal : Type :=
| JUndefined
| JNull
| JBool (b : bool)
| JNum (n : number)
| JStr (s : string)
| JArr (items : list JsVal)
| JObj (fields : list (string * JsVal)).

(** Abrupt completion by a thrown [Error]; [msg] is its [message]. *)
Inductive completion (A : Type) : Type :=
| Normal (a : A)
| Throw (msg : string).
Arguments Normal {A} a.
Arguments Throw {A} msg.

(** ToBoolean. *)
Definition truthy (v : JsVal) : bool :=
  match v with
  | JUndefined | JNull => false
  | JBool b => b
  | JNum NaN => false
  | JNum (Fin m _) => negb (m =? 0)
  | JNum _ => true
  | JStr s => negb (String.eqb s "")
  | JArr _ | JObj _ => true
  end.

(** ToString; an array prints its items joined by commas, with nothing for
    [null] and [undefined] items. *)
Fixpoint to_string (v : JsVal) : string :=
  match v with
  | JUndefined => "undefined"
  | JNull => "null"
  | JBool true => "true"
  | JBool false => "false"
  | JNum n => num_to_string n
  | JStr s => s
  | JArr items =>
      (fix join (l : list JsVal) : string :=
         match l with
         | [] => ""
         | x :: rest =>
             match x with
             | JUndefined | JNull => ""
             | _ => to_string x
             end ++
             match rest with
             | [] => ""
             | _ :: _ => "," ++ join rest
             end
         end) items
  | JObj _ => "[object Object]"
  end.

(** ToPrimitive: objects and arrays turn into their text. *)
Definition to_primitive (v : JsVal) : JsVal :=
  match v with
  | JArr _ | JObj _ => JStr (to_string v)
  | _ => v
  end.

(** ToNumber. *)
Definition to_number (v : JsVal) : number :=
  match to_primitive v with
  | JUndefined => NaN
  | JNull => of_Z 0
  | JBool true => of_Z 1
  | JBool false => of_Z 0
  | JNum n => n
  | JStr s => string_to_number s
  | _ => NaN
  end.

Definition is_string (v : JsVal) : bool :=
  match v with
  | JStr _ => true
  | _ => false
  end.

(** [a + b]: text concatenation as soon as one primitive operand is text. *)
Definition js_add (a b : JsVal) : JsVal :=
  let pa := to_primitive a in
  let pb := to_primitive b in
  if (is_string pa || is_string pb)%bool
  then JStr (to_string pa ++ to_string pb)
  else JNum (num_add (to_number pa) (to_number pb)).

(** [a * b]. *)
Definition js_mul (a b : JsVal) : number :=
  num_mul (to_number a) (to_number b).

(** [a > 0]. *)
Definition js_gt0 (a : JsVal) : bool := num_gt0 (to_number a).

(** [a || b]. *)
Definition js_or (a b : JsVal) : JsVal := if truthy a then a else b.

(** [v === 'text']. *)
Definition strict_eq_str (v : JsVal) (s : string) : bool :=
  match v with
  | JStr t => String.eqb t s
  | _ => false
  end.

(** parseFloat(v): the argument is first turned into text. *)
Definition parseFloat (v : JsVal) : number := parse_float_string (to_string v).

Fixpoint lookup (key : string) (fields : list (string * JsVal)) : JsVal :=
  match fields with
  | [] => JUndefined
  | (k, v) :: rest => if String.eqb k key then v else lookup key rest
  end.

(** [v.key], for the keys the program reads ([conversion_rate],
    [tracking_number], [carrier] and the fields of a request body), none of
    which a primitive or an array defines: reading from [null] or
    [undefined] throws a TypeError, from anything but an object gives
    [undefined]. *)
Definition get_prop (v : JsVal) (key : string) : completion JsVal :=
  match v with
  | JUndefined =>
      Throw ("Cannot read properties of undefined (reading '" ++ key ++ "')")
  | JNull =>
      Throw ("Cannot read properties of null (reading '" ++ key ++ "')")
  | JObj fields => Normal (lookup key fields)
  | _ => Normal JUndefined
  end.

(** [v.length]. *)
Definition get_length (v : JsVal) : completion JsVal :=
  match v with
  | JArr items => Normal (JNum (of_Z (Z.of_nat (List.length items))))
  | JStr s => Normal (JNum (of_Z (Z.of_nat (String.length s))))
  | _ => get_prop v "length"
  end.

(** What [for (const x of v)] walks through: the items of an array, the
    characters of a text; nothing else among these values is iterable. *)
Fixpoint chars (s : string) : list JsVal :=
  match s with
  | EmptyString => []
  | String c r => JStr (String c EmptyString) :: chars r
  end.

Definition iterate (v : JsVal) : completion (list JsVal) :=
  match v with
  | JArr items => Normal items
  | JStr s => Normal (chars s)
  | _ => Throw "trackings is not iterable"
  end.

Definition is_array (v : JsVal) : bool :=
  match v with
  | JArr _ => true
  | _ => false
  end.

End Js.

(* ===================================================================== *)
(** * The relational store *)
(* ===================================================================== *)

Module Db.
Import Js.

(** A column holds the value the program sent for it, [JNull] for SQL
    NULL.  The schema is not part of the sources: what the store itself
    refuses (types, NOT NULL, foreign keys) is left to the fault oracle of
    the run time below. *)
Record OrderRow : Type := {
  id : Z;
  purchase_date : JsVal;
  original_amount : JsVal;
  currency : JsVal;
  exchange_rate : JsVal;
  freight_cost_hnl : JsVal;
  selling_price_hnl : JsVal
}.

(** The surrogate key of a tracking is never read by the program and is
    left out. *)
Record TrackingRow : Type := {
  order_id : Z;
  tracking_number : JsVal;
  carrier : JsVal
}.

Record Tables : Type := {
  orders : list OrderRow;
  trackings : list TrackingRow
}.

(** The statements of the program, with their parameters [$1], [$2], ... *)
Inductive Stmt : Type :=
| Begin
| Commit
| Rollback
| InsertOrder (p_date p_amount p_currency p_rate : JsVal)
              (returning : list string)
| InsertTracking (p_order p_number p_carrier : JsVal)
| SelectOrders
| UpdateFinancials (p_amount p_freight p_selling p_id : JsVal)
| DeleteTrackings (p_id : JsVal)
| DeleteOrder (p_id : JsVal).

(** The driver sends [undefined] as NULL. *)
Definition param (v : JsVal) : JsVal :=
  match v with
  | JUndefined => JNull
  | _ => v
  end.

(** Text accepted for an integer column: optional white space around an
    optional sign and at least one digit. *)
Definition int_of_text (s : string) : option Z :=
  let (sg, r) := read_sign (rtrim (ltrim s)) in
  match read_digits 0 0 r with
  | (_, O, _) => None
  | (z, _, EmptyString) => Some (sg * z)
  | _ => None
  end.

(** A parameter compared with or stored in an integer column: an integral
    number, or text that reads as an integer (the [:id] of a path).  The
    program passes nothing else there. *)
Definition int_param (v : JsVal) : completion Z :=
  match v with
  | JNum (Fin m e) =>
      if 0 <=? e then Normal (m * 10 ^ e)
      else Throw ("invalid input syntax for type integer: " ++ to_string v)
  | JStr s =>
      match int_of_text s with
      | Some z => Normal z
      | None => Throw ("invalid input syntax for type integer: " ++ s)
      end
  | _ => Throw ("invalid input syntax for type integer: " ++ to_string v)
  end.

(** Modelled from the spec: the column defaults of [orders], which the
    sources do not contain (freight_cost_hnl and selling_price_hnl are
    "decimal >= 0, default 0"). *)
Definition default_cost : JsVal := JNum (of_Z 0).

Definition new_order (i : Z) (p_date p_amount p_currency p_rate : JsVal)
  : OrderRow :=
  {| id := i;
     purchase_date := param p_date;
     original_amount := param p_amount;
     currency := param p_currency;
     exchange_rate := param p_rate;
     freight_cost_hnl := default_cost;
     selling_price_hnl := default_cost |}.

Definition new_tracking (o : Z) (p_number p_carrier : JsVal) : TrackingRow :=
  {| order_id := o;
     tracking_number := param p_number;
     carrier := param p_carrier |}.

Definition add_order (r : OrderRow) (t : Tables) : Tables :=
  {| orders := orders t ++ [r]; trackings := trackings t |}.

Definition add_tracking (r : TrackingRow) (t : Tables) : Tables :=
  {| orders := orders t; trackings := trackings t ++ [r] |}.

(** UPDATE orders SET original_amount = $1, freight_cost_hnl = $2,
    selling_price_hnl = $3 WHERE id = $4 *)
Definition set_financials (a f s : JsVal) (r : OrderRow) : OrderRow :=
  {| id := id r;
     purchase_date := purchase_date r;
     original_amount := param a;
     currency := currency r;
     exchange_rate := exchange_rate r;
     freight_cost_hnl := param f;
     selling_price_hnl := param s |}.

Definition update_financials (a f s : JsVal) (i : Z) (t : Tables) : Tables :=
  {| orders := map (fun r => if id r =? i then set_financials a f s r else r)
                   (orders t);
     trackings := trackings t |}.

(** DELETE FROM trackings WHERE order_id = $1 *)
Definition delete_trackings (i : Z) (t : Tables) : Tables :=
  {| orders := orders t;
     trackings := filter (fun r => negb (order_id r =? i)) (trackings t) |}.

(** DELETE FROM orders WHERE id = $1 *)
Definition delete_order (i : Z) (t : Tables) : Tables :=
  {| orders := filter (fun r => negb (id r =? i)) (orders t);
     trackings := trackings t |}.

(** ** The listing query

    SELECT o.*, json_agg(json_build_object('n_guia', t.tracking_number,
    'carrier', t.carrier)) as trackings
    FROM orders o LEFT JOIN trackings t ON o.id = t.order_id
    GROUP BY o.id ORDER BY o.id DESC *)

Definition tracking_object (number carrier : JsVal) : JsVal :=
  JObj [("n_guia", number); ("carrier", carrier)].

(** The rows the LEFT JOIN pairs with order [o]: its trackings, or, when it
    has none, one row whose tracking columns are all NULL. *)
Definition left_join (o : OrderRow) (ts : list TrackingRow)
  : list (JsVal * JsVal) :=
  match filter (fun r => id o =? order_id r) ts with
  | [] => [(JNull, JNull)]
  | matched => map (fun r => (tracking_number r, carrier r)) matched
  end.

Definition json_agg (o : OrderRow) (ts : list TrackingRow) : JsVal :=
  JArr (map (fun nc => tracking_object (fst nc) (snd nc)) (left_join o ts)).

Fixpoint insert_desc (o : OrderRow) (sorted : list OrderRow) : list OrderRow :=
  match sorted with
  | [] => [o]
  | x :: rest =>
      if id x <? id o then o :: sorted else x :: insert_desc o rest
  end.

(** ORDER BY id DESC *)
Definition order_by_id_desc (l : list OrderRow) : list OrderRow :=
  fold_right insert_desc [] l.

Definition order_columns (o : OrderRow) : list (string * JsVal) :=
  [("id", JNum (of_Z (id o)));
   ("purchase_date", purchase_date o);
   ("original_amount", original_amount o);
   ("currency", currency o);
   ("exchange_rate", exchange_rate o);
   ("freight_cost_hnl", freight_cost_hnl o);
   ("selling_price_hnl", selling_price_hnl o)].

(** The columns named by a RETURNING clause. *)
Definition project (names : list string) (cols : list (string * JsVal))
  : list (string * JsVal) :=
  filter (fun kv => existsb (String.eqb (fst kv)) names) cols.

(** One row per order ([id] is the primary key, so every group of the
    GROUP BY holds one order). *)
Definition select_orders (t : Tables) : list JsVal :=
  map (fun o => JObj (order_columns o ++ [("trackings", json_agg o (trackings t))]))
      (order_by_id_desc (orders t)).

(** ** Running one data statement

    [seq] is the sequence that numbers the orders: it advances with every
    inserted order.  The result is the rows returned, the tables and the
    sequence afterwards; a parameter that does not convert throws. *)
Definition with_int {A} (v : JsVal) (k : Z -> completion A) : completion A :=
  match int_param v with
  | Normal z => k z
  | Throw msg => Throw msg
  end.

Definition run (s : Stmt) (seq : Z) (t : Tables)
  : completion (list JsVal * Tables * Z) :=
  match s with
  | Begin | Commit | Rollback => Normal ([], t, seq)
  | InsertOrder d a c r returning =>
      let o := new_order seq d a c r in
      Normal ([JObj (project returning (order_columns o))],
              add_order o t, seq + 1)
  | InsertTracking o n c =>
      with_int o (fun z => Normal ([], add_tracking (new_tracking z n c) t, seq))
  | SelectOrders => Normal (select_orders t, t, seq)
  | UpdateFinancials a f s i =>
      with_int i (fun z => Normal ([], update_financials a f s z t, seq))
  | DeleteTrackings i =>
      with_int i (fun z => Normal ([], delete_trackings z t, seq))
  | DeleteOrder i =>
      with_int i (fun z => Normal ([], delete_order z t, seq))
  end.

End Db.

(* ===================================================================== *)
(** * The run time: store session, rate oracle, console *)
(* ===================================================================== *)

Module Runtime.
Import Js Db.

(** What [axios.get] on the rate service comes back with: a rejection
    (network error, timeout, a status outside 2xx) or a response, of which
    the program reads [data]. *)
Inductive OracleOutcome : Type :=
| OracleError (msg : string)
| OracleReply (data : JsVal).

Inductive Event : Type :=
| EvConnect
| EvRelease
| EvSql (s : Stmt)
| EvOracleGet
| EvConsoleError (text : string).

(** [committed] is what every session sees; [working] is the private copy
    of the open transaction, if one is open.

    Modelled from the spec: the schema of [orders] is not in the sources;
    the identifier of an order is "system-generated, unique, monotonic-ish
    by insertion", here the next value [order_seq] of a sequence.  The
    sequence is outside the transaction: a rollback does not give numbers
    back. *)
Record World : Type := {
  committed : Tables;
  working : option Tables;
  order_seq : Z;
  log : list Event
}.

(** The surroundings of one request: the answer of the rate service, and
    which statements the store refuses, and with which message, given the
    tables the session sees. *)
Record Env : Type := {
  oracle : OracleOutcome;
  rejects : Tables -> Stmt -> option string
}.

Definition M (A : Type) : Type := World -> completion A * World.

Definition ret {A} (a : A) : M A := fun w => (Normal a, w).

Definition throw {A} (msg : string) : M A := fun w => (Throw msg, w).

Definition bind {A B} (c : M A) (k : A -> M B) : M B :=
  fun w =>
    match c w with
    | (Normal a, w') => k a w'
    | (Throw msg, w') => (Throw msg, w')
    end.

Definition lift {A} (c : completion A) : M A := fun w => (c, w).

(** try { c } catch (e) { h e.message } *)
Definition try_catch {A} (c : M A) (h : string -> M A) : M A :=
  fun w =>
    match c w with
    | (Normal a, w') => (Normal a, w')
    | (Throw msg, w') => h msg w'
    end.

(** try { c } finally { f } *)
Definition try_finally {A} (c : M A) (f : M unit) : M A :=
  fun w =>
    match c w with
    | (r, w') =>
        match f w' with
        | (Normal _, w'') => (r, w'')
        | (Throw msg, w'') => (Throw msg, w'')
        end
    end.

Declare Scope js_scope.
Delimit Scope js_scope with js.
Notation "x <- c ;; k" := (bind c (fun x => k))
  (at level 61, c at next level, right associativity) : js_scope.
Notation "c ;; k" := (bind c (fun _ => k))
  (at level 61, right associativity) : js_scope.
Open Scope js_scope.

(** for (const x of items) { body x } *)
Fixpoint for_each {A} (items : list A) (body : A -> M unit) : M unit :=
  match items with
  | [] => ret tt
  | x :: rest => body x ;; for_each rest body
  end.

Definition logged (e : Event) (w : World) : World :=
  {| committed := committed w; working := working w;
     order_seq := order_seq w; log := log w ++ [e] |}.

Definition emit (e : Event) : M unit := fun w => (Normal tt, logged e w).

Definition console_error (text : string) : M unit := emit (EvConsoleError text).

(** pool.connect() and client.release() *)
Definition pool_connect : M unit := emit EvConnect.
Definition client_release : M unit := emit EvRelease.

(** The tables the session sees. *)
Definition view (w : World) : Tables :=
  match working w with
  | Some t => t
  | None => committed w
  end.

(** A data statement writes to the open transaction, or straight to the
    committed tables when none is open. *)
Definition store (t : Tables) (seq : Z) (w : World) : World :=
  match working w with
  | Some _ => {| committed := committed w; working := Some t;
                 order_seq := seq; log := log w |}
  | None => {| committed := t; working := None;
               order_seq := seq; log := log w |}
  end.

Definition begin_txn (w : World) : World :=
  {| committed := committed w; working := Some (view w);
     order_seq := order_seq w; log := log w |}.

Definition commit_txn (w : World) : World :=
  {| committed := view w; working := None;
     order_seq := order_seq w; log := log w |}.

Definition rollback_txn (w : World) : World :=
  {| committed := committed w; working := None;
     order_seq := order_seq w; log := log w |}.

Section WithEnv.
Variable E : Env.

(** client.query(...) and pool.query(...): the statement is logged, then
    either refused by the store or run.  ROLLBACK is never refused. *)
Definition exec (s : Stmt) : M (list JsVal) :=
  emit (EvSql s) ;;
  fun w =>
    match s with
    | Rollback => (Normal [], rollback_txn w)
    | _ =>
        match rejects E (view w) s with
        | Some msg => (Throw msg, w)
        | None =>
            match s with
            | Begin => (Normal [], begin_txn w)
            | Commit => (Normal [], commit_txn w)
            | _ =>
                match run s (order_seq w) (view w) with
                | Normal (rows, t, seq) => (Normal rows, store t seq w)
                | Throw msg => (Throw msg, w)
                end
            end
        end
    end.

(** await axios.get(url), of which the caller reads [.data] *)
Definition axios_get_data : M JsVal :=
  emit EvOracleGet ;;
  match oracle E with
  | OracleError msg => throw msg
  | OracleReply data => ret data
  end.

End WithEnv.

End Runtime.

(* ===================================================================== *)
(** * Express: requests, responses, routes *)
(* ===================================================================== *)

Module Express.
Import Js Runtime.

Inductive Method : Type := GET | POST | PUT | DELETE.

Definition method_eqb (a b : Method) : bool :=
  match a, b with
  | GET, GET | POST, POST | PUT, PUT | DELETE, DELETE => true
  | _, _ => false
  end.

(** [body] is [req.body] as express.json() leaves it: the fields of a JSON
    object (none when the request has no JSON body). *)
Record Request : Type := {
  method : Method;
  path : list string;
  params : list (string * JsVal);
  body : list (string * JsVal)
}.

Record Response : Type := {
  status : nat;
  payload : JsVal
}.

(** res.json(v) answers 200 unless res.status(n) came first. *)
Definition json (code : nat) (v : JsVal) : Response :=
  {| status := code; payload := v |}.

Inductive Segment : Type :=
| Lit (s : string)
| Par (name : string).

(** The parameters bound when [pattern] matches [p], e.g. '/api/orders/:id'. *)
Fixpoint match_path (pattern : list Segment) (p : list string)
  : option (list (string * JsVal)) :=
  match pattern, p with
  | [], [] => Some []
  | Lit s :: pattern', x :: p' =>
      if String.eqb s x then match_path pattern' p' else None
  | Par name :: pattern', x :: p' =>
      match match_path pattern' p' with
      | Some bound => Some ((name, JStr x) :: bound)
      | None => None
      end
  | _, _ => None
  end.

Record Route : Type := {
  r_method : Method;
  r_path : list Segment;
  r_handler : Request -> M Response
}.

Definition with_params (bound : list (string * JsVal)) (req : Request) : Request :=
  {| method := method req; path := path req; params := bound; body := body req |}.

(** The router walks the routes in the order they were registered and runs
    the first one whose method and path match.  No handler of the program
    takes or calls [next], so the walk ends there; nothing matching ends in
    the 404 of the framework. *)
Fixpoint dispatch (routes : list Route) (req : Request) : M Response :=
  match routes with
  | [] => ret (json 404 (JStr "Not Found"))
  | r :: rest =>
      if method_eqb (r_method r) (method req) then
        match match_path (r_path r) (path req) with
        | Some bound => r_handler r (with_params bound req)
        | None => dispatch rest req
        end
      else dispatch rest req
  end.

End Express.

(* ===================================================================== *)
(** * index.js *)
(* ===================================================================== *)

Module Ledger.
Import Js Db Runtime Express.

(** The margin added to the rate of the service, [0.18], and the rate used
    when the service fails, [26.60]. *)
Definition spread : number := mk 18 (-2).
Definition fallback_rate : number := mk 2660 (-2).

Definition success (message : string) : JsVal :=
  JObj [("success", JBool true); ("message", JStr message)].

Definition error_body (message : string) : JsVal :=
  JObj [("error", JStr message)].

Section WithEnv.
Variable E : Env.

(** async function getDollarRate() *)
Definition getDollarRate : M JsVal :=
  try_catch
    (data <- axios_get_data E ;;
     (* response.data && response.data.conversion_rate *)
     test <- (if truthy data then lift (get_prop data "conversion_rate")
              else ret data) ;;
     if truthy test then
       rate <- lift (get_prop data "conversion_rate") ;;
       ret (js_add rate (JNum spread))
     else throw "API falló")
    (fun _ =>
       console_error "Usando tasa respaldo 26.60" ;;
       ret (JNum fallback_rate)).

(** The rate of a new order (the [let rate = 1; if (currency === 'USD')
    ...] of the first registration): a manual rate when the caller wrote
    one, the rate of the service otherwise. *)
Definition resolve_rate (currency custom_rate : JsVal) : M JsVal :=
  if strict_eq_str currency "USD" then
    if truthy custom_rate
    then ret (JNum (parseFloat custom_rate))
    else getDollarRate
  else ret (JNum (of_Z 1)).

(** app.get('/api/rate', ...) *)
Definition get_rate (req : Request) : M Response :=
  rate <- getDollarRate ;;
  ret (json 200 (JObj [("rate", rate)])).

(** The body of the loop of the first registration over [trackings]:
    client.query(INSERT INTO trackings ..., [orderId,
    track.tracking_number, track.carrier]) *)
Definition insert_track (orderId track : JsVal) : M unit :=
  number <- lift (get_prop track "tracking_number") ;;
  carrier <- lift (get_prop track "carrier") ;;
  exec E (InsertTracking orderId number carrier) ;;
  ret tt.

(** if (trackings && trackings.length > 0) { for (const track of
    trackings) { ... } } *)
Definition insert_trackings (orderId trackings : JsVal) : M unit :=
  go <- (if truthy trackings then
           len <- lift (get_length trackings) ;; ret (js_gt0 len)
         else ret false) ;;
  if go : bool then
    items <- lift (iterate trackings) ;;
    for_each items (insert_track orderId)
  else ret tt.

(** app.post('/api/orders', ...), first registration: the route that takes
    a manual rate, [custom_rate]. *)
Definition post_orders (req : Request) : M Response :=
  let purchase_date := lookup "purchase_date" (body req) in
  let original_amount := lookup "original_amount" (body req) in
  let currency := lookup "currency" (body req) in
  let trackings := lookup "trackings" (body req) in
  let custom_rate := lookup "custom_rate" (body req) in
  pool_connect ;;
  try_finally
    (try_catch
       (exec E Begin ;;
        rate <- resolve_rate currency custom_rate ;;
        orderRes <- exec E (InsertOrder purchase_date original_amount
                                        currency rate ["id"; "exchange_rate"]) ;;
        orderId <- lift (get_prop (nth 0 orderRes JUndefined) "id") ;;
        insert_trackings orderId trackings ;;
        exec E Commit ;;
        ret (json 200 (JObj [("success", JBool true);
                             ("message", JStr "Pedido guardado");
                             ("orderId", orderId)])))
       (fun e =>
          exec E Rollback ;;
          ret (json 500 (error_body e))))
    client_release.

(** app.get('/', ...) *)
Definition get_root (req : Request) : M Response :=
  ret (json 200 (JStr "Servidor de Pedidos Shein Funcionando 🚀")).

(** The loop of the second registration over [trackings]. *)
Definition insert_trackings_second (newOrder trackings : JsVal) : M unit :=
  (* trackings && Array.isArray(trackings) && trackings.length > 0 *)
  go <- (if (truthy trackings && is_array trackings)%bool then
           len <- lift (get_length trackings) ;; ret (js_gt0 len)
         else ret false) ;;
  if go : bool then
    items <- lift (iterate trackings) ;;
    for_each items (fun track =>
      orderId <- lift (get_prop newOrder "id") ;;
      number <- lift (get_prop track "tracking_number") ;;
      carrier <- lift (get_prop track "carrier") ;;
      exec E (InsertTracking orderId number
                             (js_or carrier (JStr "Desconocido"))) ;;
      ret tt)
  else ret tt.

(** app.post('/api/orders', ...), second registration: the older route,
    with the check of the required fields and the total in the answer. *)
Definition post_orders_second (req : Request) : M Response :=
  let purchase_date := lookup "purchase_date" (body req) in
  let original_amount := lookup "original_amount" (body req) in
  let currency := lookup "currency" (body req) in
  let trackings := lookup "trackings" (body req) in
  if (negb (truthy purchase_date) || negb (truthy original_amount))%bool then
    ret (json 400 (error_body "Faltan datos obligatorios (fecha o monto)"))
  else
    pool_connect ;;
    try_finally
      (try_catch
         (exec E Begin ;;
          rate <- (if strict_eq_str currency "USD" then getDollarRate
                   else ret (JNum (of_Z 1))) ;;
          orderResult <- exec E (InsertOrder purchase_date original_amount
                                   currency rate
                                   ["id"; "original_amount"; "exchange_rate"]) ;;
          let newOrder := nth 0 orderResult JUndefined in
          insert_trackings_second newOrder trackings ;;
          exec E Commit ;;
          order_id <- lift (get_prop newOrder "id") ;;
          tasa_usada <- lift (get_prop newOrder "exchange_rate") ;;
          amount <- lift (get_prop newOrder "original_amount") ;;
          ret (json 201 (JObj [("success", JBool true);
                               ("message", JStr "Pedido guardado exitosamente");
                               ("order_id", order_id);
                               ("tasa_usada", tasa_usada);
                               ("total_en_lempiras",
                                JStr (toFixed2 (js_mul amount tasa_usada)))])))
         (fun e =>
            exec E Rollback ;;
            console_error ("Error guardando pedido: " ++ e) ;;
            ret (json 500 (JObj [("error", JStr "Error interno del servidor");
                                 ("details", JStr e)]))))
      client_release.

(** app.get('/api/orders', ...) *)
Definition get_orders (req : Request) : M Response :=
  try_catch
    (rows <- exec E SelectOrders ;;
     ret (json 200 (JArr rows)))
    (fun e => ret (json 500 (error_body e))).

(** app.post('/api/orders/:id/tracking', ...) *)
Definition post_tracking (req : Request) : M Response :=
  let id := lookup "id" (params req) in
  let tracking_number := lookup "tracking_number" (body req) in
  let carrier := lookup "carrier" (body req) in
  try_catch
    (exec E (InsertTracking id tracking_number carrier) ;;
     ret (json 200 (success "Nuevo tracking agregado")))
    (fun e => ret (json 500 (error_body e))).

(** app.put('/api/orders/:id/financials', ...) *)
Definition put_financials (req : Request) : M Response :=
  let id := lookup "id" (params req) in
  let original_amount := lookup "original_amount" (body req) in
  let freight_cost_hnl := lookup "freight_cost_hnl" (body req) in
  let selling_price_hnl := lookup "selling_price_hnl" (body req) in
  try_catch
    (exec E (UpdateFinancials original_amount
                              (js_or freight_cost_hnl (JNum (of_Z 0)))
                              (js_or selling_price_hnl (JNum (of_Z 0)))
                              id) ;;
     ret (json 200 (success "Pedido actualizado")))
    (fun e => ret (json 500 (error_body e))).

(** app.delete('/api/orders/:id', ...) *)
Definition delete_orders (req : Request) : M Response :=
  let id := lookup "id" (params req) in
  try_catch
    (exec E (DeleteTrackings id) ;;
     exec E (DeleteOrder id) ;;
     ret (json 200 (success "Pedido eliminado")))
    (fun e => ret (json 500 (error_body e))).

(** The routes, in the order [index.js] registers them. *)
Definition app : list Route :=
  [ {| r_method := GET; r_path := [Lit "api"; Lit "rate"];
       r_handler := get_rate |};
    {| r_method := POST; r_path := [Lit "api"; Lit "orders"];
       r_handler := post_orders |};
    {| r_method := GET; r_path := [];
       r_handler := get_root |};
    {| r_method := POST; r_path := [Lit "api"; Lit "orders"];
       r_handler := post_orders_second |};
    {| r_method := GET; r_path := [Lit "api"; Lit "orders"];
       r_handler := get_orders |};
    {| r_method := POST; r_path := [Lit "api"; Lit "orders"; Par "id"; Lit "tracking"];
       r_handler := post_tracking |};
    {| r_method := PUT; r_path := [Lit "api"; Lit "orders"; Par "id"; Lit "financials"];
       r_handler := put_financials |};
    {| r_method := DELETE; r_path := [Lit "api"; Lit "orders"; Par "id"];
       r_handler := delete_orders |} ].

Definition handle (req : Request) : M Response := dispatch app req.

End WithEnv.

End Ledger.

(* ===================================================================== *)
(** * The simplified variant: every amount in Lempiras *)
(* ===================================================================== *)

Module Lempiras.
Import Js Db Runtime Express.

Section WithEnv.
Variable E : Env.

(** app.post('/api/orders', ...): currency 'HNL' and rate 1.0 are literals
    of the INSERT. *)
Definition post_orders (req : Request) : M Response :=
  let purchase_date := lookup "purchase_date" (body req) in
  let original_amount := lookup "original_amount" (body req) in
  let trackings := lookup "trackings" (body req) in
  pool_connect ;;
  try_finally
    (try_catch
       (exec E Begin ;;
        orderRes <- exec E (InsertOrder purchase_date original_amount
                                        (JStr "HNL") (JNum (of_Z 1)) ["id"]) ;;
        orderId <- lift (get_prop (nth 0 orderRes JUndefined) "id") ;;
        Ledger.insert_trackings E orderId trackings ;;
        exec E Commit ;;
        ret (json 200 (Ledger.success "Pedido guardado")))
       (fun e =>
          exec E Rollback ;;
          ret (json 500 (Ledger.error_body e))))
    client_release.

(** app.put('/api/orders/:id/financials', ...) *)
Definition put_financials (req : Request) : M Response :=
  let id := lookup "id" (params req) in
  let original_amount := lookup "original_amount" (body req) in
  let freight_cost_hnl := lookup "freight_cost_hnl" (body req) in
  let selling_price_hnl := lookup "selling_price_hnl" (body req) in
  try_catch
    (exec E (UpdateFinancials original_amount
                              (js_or freight_cost_hnl (JNum (of_Z 0)))
                              (js_or selling_price_hnl (JNum (of_Z 0)))
                              id) ;;
     ret (json 200 (Ledger.success "Actualizado correctamente")))
    (fun e => ret (json 500 (Ledger.error_body e))).

(** app.post('/api/orders/:id/tracking', ...) *)
Definition post_tracking (req : Request) : M Response :=
  let id := lookup "id" (params req) in
  let tracking_number := lookup "tracking_number" (body req) in
  let carrier := lookup "carrier" (body req) in
  try_catch
    (exec E (InsertTracking id tracking_number carrier) ;;
     ret (json 200 (JObj [("success", JBool true)])))
    (fun e => ret (json 500 (Ledger.error_body e))).

(** app.delete('/api/orders/:id', ...) *)
Definition delete_orders (req : Request) : M Response :=
  let id := lookup "id" (params req) in
  try_catch
    (exec E (DeleteTrackings id) ;;
     exec E (DeleteOrder id) ;;
     ret (json 200 (JObj [("success", JBool true)])))
    (fun e => ret (json 500 (Ledger.error_body e))).

(** The routes, in the order the file registers them; the listing is the
    query of [index.js]. *)
Definition app : list Route :=
  [ {| r_method := GET; r_path := [Lit "api"; Lit "orders"];
       r_handler := Ledger.get_orders E |};
    {| r_method := POST; r_path := [Lit "api"; Lit "orders"];
       r_handler := post_orders |};
    {| r_method := PUT; r_path := [Lit "api"; Lit "orders"; Par "id"; Lit "financials"];
       r_handler := put_financials |};
    {| r_method := POST; r_path := [Lit "api"; Lit "orders"; Par "id"; Lit "tracking"];
       r_handler := post_tracking |};
    {| r_method := DELETE; r_path := [Lit "api"; Lit "orders"; Par "id"];
       r_handler := delete_orders |} ].

Definition handle (req : Request) : M Response := dispatch app req.

End WithEnv.

End Lempiras.

(* ===================================================================== *)
(** * Vocabulary of the properties *)
(* ===================================================================== *)

Module Props.
Import Js Db Runtime Express.

(** How many times the rate service was called. *)
Definition is_oracle_get (e : Event) : bool :=
  match e with
  | EvOracleGet => true
  | _ => false
  end.

Definition oracle_calls (l : list Event) : nat :=
  List.length (filter is_oracle_get l).

(** The requests of the interface. *)
Definition create_request (fields : list (string * JsVal)) : Request :=
  {| method := POST; path := ["api"; "orders"]; params := []; body := fields |}.

Definition list_request : Request :=
  {| method := GET; path := ["api"; "orders"]; params := []; body := [] |}.

Definition rate_request : Request :=
  {| method := GET; path := ["api"; "rate"]; params := []; body := [] |}.

Definition financials_request (id : string) (fields : list (string * JsVal))
  : Request :=
  {| method := PUT; path := ["api"; "orders"; id; "financials"];
     params := []; body := fields |}.

Definition delete_request (id : string) : Request :=
  {| method := DELETE; path := ["api"; "orders"; id];
     params := []; body := [] |}.

(** [item.key] for an item of [trackings] that has properties. *)
Definition field (item : JsVal) (key : string) : JsVal :=
  match get_prop item key with
  | Normal v => v
  | Throw _ => JUndefined
  end.

(** The row a tracking of the request becomes under order [i]. *)
Definition tracking_of (i : Z) (item : JsVal) : TrackingRow :=
  new_tracking i (field item "tracking_number") (field item "carrier").

(** The INSERT the first registration issues for [item] under order [i]. *)
Definition tracking_insert (i : Z) (item : JsVal) : Stmt :=
  InsertTracking (JNum (of_Z i)) (field item "tracking_number")
                 (field item "carrier").

(** Items whose properties can be read (anything but [null]). *)
Definition readable (item : JsVal) : bool :=
  match item with
  | JUndefined | JNull => false
  | _ => true
  end.

(** BEGIN, COMMIT and ROLLBACK, as opposed to the statements on data. *)
Definition is_control (s : Stmt) : bool :=
  match s with
  | Begin | Commit | Rollback => true
  | _ => false
  end.

(** The trackings a body carries: none when the field is absent or
    [null], the items of the array otherwise. *)
Definition tracking_items (v : JsVal) : option (list JsVal) :=
  match v with
  | JUndefined | JNull => Some []
  | JArr items => Some items
  | _ => None
  end.

Definition is_none {A} (o : option A) : bool :=
  match o with
  | None => true
  | Some _ => false
  end.

(** Whether the store takes the trackings [items] of order [i] one after
    the other, starting from the tables [t] of the transaction. *)
Fixpoint loop_accepts (E : Env) (i : Z) (t : Tables) (items : list JsVal)
  : bool :=
  match items with
  | [] => true
  | x :: rest =>
      readable x && is_none (rejects E t (tracking_insert i x)) &&
      loop_accepts E i (add_tracking (tracking_of i x) t) rest
  end.

Definition add_trackings (i : Z) (items : list JsVal) (t : Tables) : Tables :=
  {| orders := orders t;
     trackings := trackings t ++ map (tracking_of i) items |}.

(** The value an action returns (it does not depend on the store for the
    actions this is used on). *)
Definition value_of (c : M JsVal) : JsVal :=
  match c {| committed := {| orders := []; trackings := [] |};
             working := None; order_seq := 1; log := [] |} with
  | (Normal v, _) => v
  | (Throw _, _) => JUndefined
  end.

(** The rate of a new order, as a value. *)
Definition rate_of (E : Env) (currency custom_rate : JsVal) : JsVal :=
  value_of (Ledger.resolve_rate E currency custom_rate).

(** Whether the rate service is asked for this order. *)
Definition asks_oracle (currency custom_rate : JsVal) : bool :=
  strict_eq_str currency "USD" && negb (truthy custom_rate).

(** The order the first registration inserts for the body [fields] when
    the sequence stands at [i]. *)
Definition order_of (E : Env) (i : Z) (fields : list (string * JsVal))
  : OrderRow :=
  new_order i (lookup "purchase_date" fields) (lookup "original_amount" fields)
            (lookup "currency" fields)
            (rate_of E (lookup "currency" fields) (lookup "custom_rate" fields)).

Definition order_insert (E : Env) (fields : list (string * JsVal)) : Stmt :=
  InsertOrder (lookup "purchase_date" fields) (lookup "original_amount" fields)
              (lookup "currency" fields)
              (rate_of E (lookup "currency" fields) (lookup "custom_rate" fields))
              ["id"; "exchange_rate"].

(** Whether the store takes every statement of the creation of an order
    with the trackings [items], from the committed tables [t]. *)
Definition create_accepted (E : Env) (t : Tables) (i : Z)
           (fields : list (string * JsVal)) (items : list JsVal) : bool :=
  is_none (rejects E t Begin) &&
  is_none (rejects E t (order_insert E fields)) &&
  loop_accepts E i (add_order (order_of E i fields) t) items &&
  is_none (rejects E (add_trackings i items (add_order (order_of E i fields) t))
                   Commit).

(** What the first registration answers on success. *)
Definition created (i : Z) : Response :=
  json 200 (JObj [("success", JBool true);
                  ("message", JStr "Pedido guardado");
                  ("orderId", JNum (of_Z i))]).

(** A store that refuses nothing. *)
Definition accepts_all (E : Env) : Prop :=
  forall t s, rejects E t s = None.

(** The ways the rate service fails: the call itself fails; the response
    is malformed (its body is no JSON object: nothing, or text that did not
    parse, or any other value); the body is an object without a rate. *)
Inductive oracle_failed : OracleOutcome -> Prop :=
| network_error msg :
    oracle_failed (OracleError msg)
| malformed_response data :
    (forall fields, data <> JObj fields) ->
    oracle_failed (OracleReply data)
| missing_rate_field fields :
    lookup "conversion_rate" fields = JUndefined ->
    oracle_failed (OracleReply (JObj fields)).

(** No tracking without its order. *)
Definition no_orphans (t : Tables) : Prop :=
  forall r, In r (trackings t) -> exists o, In o (orders t) /\ id o = order_id r.

(** Newest id first. *)
Fixpoint newest_first (l : list OrderRow) : Prop :=
  match l with
  | [] => True
  | x :: rest => Forall (fun y => id y <= id x) rest /\ newest_first rest
  end.

(** The [trackings] array of a listed row. *)
Definition listed_trackings (row : JsVal) : JsVal := field row "trackings".

(** The answer [{n_guia: null, carrier: null}] of the aggregation for a
    row without tracking. *)
Definition null_placeholder : JsVal := tracking_object JNull JNull.

(** What the financials update may change in a row, and what it may not. *)
Definition same_identity (r r' : OrderRow) : Prop :=
  id r' = id r /\ purchase_date r' = purchase_date r /\
  currency r' = currency r /\ exchange_rate r' = exchange_rate r.

(** An accepting store and an unreachable rate service, an empty ledger,
    used to run the handlers on concrete requests. *)
Definition quiet_store : Tables -> Stmt -> option string := fun _ _ => None.

Definition offline : Env :=
  {| oracle := OracleError "connect ECONNREFUSED"; rejects := quiet_store |}.

Definition empty_world : World :=
  {| committed := {| orders := []; trackings := [] |};
     working := None; order_seq := 1; log := [] |}.

(** A store that refuses the tracking number [number], whatever it holds,
    and nothing else. *)
Definition refuses_number (number : string) : Tables -> Stmt -> option string :=
  fun _ s =>
    match s with
    | InsertTracking _ (JStr n) _ =>
        if String.eqb n number
        then Some "duplicate key value violates unique constraint"
        else None
    | _ => None
    end.

Definition picky (number : string) : Env :=
  {| oracle := OracleError "connect ECONNREFUSED";
     rejects := refuses_number number |}.

(** The order of the example: 100 USD at the manual rate "25.00". *)
Definition example_order : list (string * JsVal) :=
  [("purchase_date", JStr "2024-01-01");
   ("original_amount", JNum (of_Z 100));
   ("currency", JStr "USD");
   ("custom_rate", JStr "25.00")].

Definition two_trackings : list JsVal :=
  [JObj [("tracking_number", JStr "1Z999"); ("carrier", JStr "UPS")];
   JObj [("tracking_number", JStr "LP001"); ("carrier", JStr "Correos")]].

Definition example_with_trackings : list (string * JsVal) :=
  example_order ++ [("trackings", JArr two_trackings)].

(** Sample surroundings and requests. *)
Definition html_reply : Env :=
  {| oracle := OracleReply (JStr "<html>502 Bad Gateway</html>");
     rejects := quiet_store |}.

Definition error_reply : Env :=
  {| oracle := OracleReply (JObj [("result", JStr "error");
                                  ("error-type", JStr "invalid-key")]);
     rejects := quiet_store |}.

Definition usd_order : list (string * JsVal) :=
  [("purchase_date", JStr "2024-01-01");
   ("original_amount", JNum (of_Z 100));
   ("currency", JStr "USD")].

Definition hnl_order : list (string * JsVal) :=
  [("purchase_date", JStr "2024-01-01");
   ("original_amount", JNum (of_Z 2500));
   ("currency", JStr "HNL")].

Definition lonely_order : OrderRow :=
  new_order 1 (JStr "2024-01-01") (JNum (of_Z 100)) (JStr "HNL") (JNum (of_Z 1)).

Definition one_order_world : World :=
  {| committed := {| orders := [lonely_order]; trackings := [] |};
     working := None; order_seq := 2; log := [] |}.

Definition two_orders_world : World :=
  {| committed :=
       {| orders := [new_order 1 (JStr "2024-01-01") (JNum (of_Z 100))
                               (JStr "USD") (JNum (of_Z 25));
                     new_order 2 (JStr "2024-02-01") (JNum (of_Z 40))
                               (JStr "HNL") (JNum (of_Z 1))];
          trackings := [new_tracking 1 (JStr "1Z999") (JStr "UPS")] |};
     working := None; order_seq := 3; log := [] |}.

End Props.

(* ===================================================================== *)
(** * Vocabulary of the further properties *)
(* ===================================================================== *)

Module MoreProps.
Import Js Db Runtime Express Props.

Definition tracking_request (id : string) (fields : list (string * JsVal))
  : Request :=
  {| method := POST; path := ["api"; "orders"; id; "tracking"];
     params := []; body := fields |}.

(** A rate service that answers [rate] for the pair USD/HNL. *)
Definition live (rate : JsVal) : Env :=
  {| oracle := OracleReply (JObj [("result", JStr "success");
                                  ("conversion_rate", rate)]);
     rejects := quiet_store |}.


(** The row of the listing for order [o], over the tables [t]. *)
Definition listed_row (t : Tables) (o : OrderRow) : JsVal :=
  JObj (order_columns o ++ [("trackings", json_agg o (trackings t))]).


(** A store that refuses to delete orders, and nothing else. *)
Definition keeps_orders : Env :=
  {| oracle := OracleError "connect ECONNREFUSED";
     rejects := fun _ s =>
       match s with
       | DeleteOrder _ => Some "permission denied for table orders"
       | _ => None
       end |}.

(** Two runs with the same effect: the same world afterwards, and answers
    with the same status. *)
Definition same_effect (a b : completion Response * World) : Prop :=
  snd a = snd b /\
  match fst a, fst b with
  | Normal r1, Normal r2 => status r1 = status r2
  | Throw m1, Throw m2 => m1 = m2
  | _, _ => False
  end.

(** The items the loop of the first registration visits for a value of
    [trackings]; none at all when the value is falsy or has no positive
    [length], and [None] when it has one but cannot be iterated. *)
(** The route list of [index.js] without the second registration of
    POST /api/orders (the fourth route). *)
Definition app_without_second (E : Env) : list Route :=
  firstn 3 (Ledger.app E) ++ skipn 4 (Ledger.app E).

(** The items the loop of the second registration visits: those of an
    array, nothing for any other value. *)
Definition array_items (v : JsVal) : list JsVal :=
  match v with
  | JArr items => items
  | _ => []
  end.

(** The row a tracking becomes in the second registration: a falsy carrier
    is stored as 'Desconocido'. *)
Definition tracking_of_second (i : Z) (item : JsVal) : TrackingRow :=
  new_tracking i (field item "tracking_number")
               (js_or (field item "carrier") (JStr "Desconocido")).

Definition tracking_insert_second (i : Z) (item : JsVal) : Stmt :=
  InsertTracking (JNum (of_Z i)) (field item "tracking_number")
                 (js_or (field item "carrier") (JStr "Desconocido")).

Fixpoint loop_accepts_second (E : Env) (i : Z) (t : Tables)
         (items : list JsVal) : bool :=
  match items with
  | [] => true
  | x :: rest =>
      readable x && is_none (rejects E t (tracking_insert_second i x)) &&
      loop_accepts_second E i (add_tracking (tracking_of_second i x) t) rest
  end.

Definition add_trackings_second (i : Z) (items : list JsVal) (t : Tables)
  : Tables :=
  {| orders := orders t;
     trackings := trackings t ++ map (tracking_of_second i) items |}.

(** The rate of the second registration: the manual rate plays no part. *)
Definition rate_of_second (E : Env) (currency : JsVal) : JsVal :=
  if strict_eq_str currency "USD"
  then value_of (Ledger.getDollarRate E)
  else JNum (of_Z 1).

Definition order_of_second (E : Env) (i : Z) (fields : list (string * JsVal))
  : OrderRow :=
  new_order i (lookup "purchase_date" fields) (lookup "original_amount" fields)
            (lookup "currency" fields)
            (rate_of_second E (lookup "currency" fields)).

Definition order_insert_second (E : Env) (fields : list (string * JsVal))
  : Stmt :=
  InsertOrder (lookup "purchase_date" fields) (lookup "original_amount" fields)
              (lookup "currency" fields)
              (rate_of_second E (lookup "currency" fields))
              ["id"; "original_amount"; "exchange_rate"].

(** What the second registration answers on success. *)
Definition created_second (o : OrderRow) : Response :=
  json 201 (JObj [("success", JBool true);
                  ("message", JStr "Pedido guardado exitosamente");
                  ("order_id", JNum (of_Z (id o)));
                  ("tasa_usada", exchange_rate o);
                  ("total_en_lempiras",
                   JStr (toFixed2 (js_mul (original_amount o)
                                          (exchange_rate o))))]).

Definition walked (v : JsVal) : option (list JsVal) :=
  match v with
  | JArr items => Some items
  | JStr s => Some (chars s)
  | JObj fields => if js_gt0 (lookup "length" fields) then None else Some []
  | _ => Some []
  end.

End MoreProps.

(* ===================================================================== *)
(** * Facts about the model *)
(* ===================================================================== *)

Module Facts.
Import Js Db Runtime Express Props.

(** ** Numbers *)

Lemma strip10_spec (fuel : nat) :
  forall m e, m <> 0 ->
    let (m', e') := strip10 fuel m e in
    e <= e' /\ m' * 10 ^ (e' - e) = m /\ Z.sgn m' = Z.sgn m.
Proof.
  induction fuel as [|f IH]; intros m e Hm; simpl.
  - rewrite Z.sub_diag. simpl. lia.
  - destruct (m mod 10 =? 0) eqn:Hmod.
    + apply Z.eqb_eq in Hmod.
      assert (Hdiv : m = 10 * (m / 10)) by (apply Z.div_exact; lia).
      assert (Hq : m / 10 <> 0) by lia.
      specialize (IH (m / 10) (e + 1) Hq).
      destruct (strip10 f (m / 10) (e + 1)) as [m' e'].
      destruct IH as (Hle & Hval & Hsgn).
      split; [lia|]. split.
      * replace (e' - e) with (1 + (e' - (e + 1))) by lia.
        rewrite Z.pow_add_r by lia.
        rewrite Z.pow_1_r.
        transitivity (10 * (m / 10)); [|lia].
        rewrite <- Hval. ring.
      * rewrite Hsgn.
        transitivity (Z.sgn (10 * (m / 10))); [|now rewrite <- Hdiv].
        rewrite Z.sgn_mul. simpl. now destruct (Z.sgn (m / 10)).
    + rewrite Z.sub_diag. simpl. lia.
Qed.

Lemma num_sgn_mk (m e : Z) : num_sgn (mk m e) = Z.sgn m.
Proof.
  unfold mk. destruct (m =? 0) eqn:H0.
  - apply Z.eqb_eq in H0. now subst.
  - apply Z.eqb_neq in H0.
    pose proof (strip10_spec (Z.to_nat (Z.log2 (Z.abs m))) m e H0) as H.
    destruct (strip10 _ m e) as [m' e']. simpl. tauto.
Qed.

(** An integral number reaches the store as the integer it denotes. *)
Lemma int_param_of_Z (z : Z) : int_param (JNum (of_Z z)) = Normal z.
Proof.
  unfold of_Z, mk. destruct (z =? 0) eqn:H0.
  - apply Z.eqb_eq in H0. now subst.
  - apply Z.eqb_neq in H0.
    pose proof (strip10_spec (Z.to_nat (Z.log2 (Z.abs z))) z 0 H0) as H.
    destruct (strip10 _ z 0) as [m' e']. destruct H as (Hle & Hval & _).
    unfold int_param.
    replace (0 <=? e') with true by (symmetry; apply Z.leb_le; lia).
    f_equal. rewrite Z.sub_0_r in Hval. exact Hval.
Qed.

Lemma js_gt0_of_Z (z : Z) : js_gt0 (JNum (of_Z z)) = (0 <? z).
Proof.
  unfold js_gt0, to_number, to_primitive, num_gt0, of_Z.
  rewrite num_sgn_mk.
  destruct z; reflexivity.
Qed.

(** ** The monad *)

Arguments oracle_calls : simpl never.

Lemma oracle_calls_app l e : is_oracle_get e = false -> oracle_calls (l ++ [e]) = oracle_calls l.
Proof. intros H. unfold oracle_calls. rewrite filter_app. simpl. rewrite H. now rewrite app_nil_r. Qed.

Lemma bind_normal {A B} (c : M A) (k : A -> M B) w a w1 :
  c w = (Normal a, w1) -> bind c k w = k a w1.
Proof. intros H. unfold bind. now rewrite H. Qed.

Lemma bind_throw {A B} (c : M A) (k : A -> M B) w msg w1 :
  c w = (Throw msg, w1) -> bind c k w = (Throw msg, w1).
Proof. intros H. unfold bind. now rewrite H. Qed.

Section Statements.
Variable E : Env.

Lemma exec_in_txn s w t :
  working w = Some t -> is_control s = false ->
  exec E s w =
    match rejects E t s with
    | Some msg => (Throw msg, logged (EvSql s) w)
    | None =>
        match run s (order_seq w) t with
        | Normal (rows, t', seq) =>
            (Normal rows,
             {| committed := committed w; working := Some t';
                order_seq := seq; log := log w ++ [EvSql s] |})
        | Throw msg => (Throw msg, logged (EvSql s) w)
        end
    end.
Proof.
  intros Hw Hs.
  destruct s; try discriminate Hs;
    unfold exec, bind, emit, view, store, logged; cbn [working committed order_seq log];
    rewrite Hw; reflexivity.
Qed.

Lemma exec_autocommit s w :
  working w = None -> is_control s = false ->
  exec E s w =
    match rejects E (committed w) s with
    | Some msg => (Throw msg, logged (EvSql s) w)
    | None =>
        match run s (order_seq w) (committed w) with
        | Normal (rows, t', seq) =>
            (Normal rows,
             {| committed := t'; working := None;
                order_seq := seq; log := log w ++ [EvSql s] |})
        | Throw msg => (Throw msg, logged (EvSql s) w)
        end
    end.
Proof.
  intros Hw Hs.
  destruct s; try discriminate Hs;
    unfold exec, bind, emit, view, store, logged; cbn [working committed order_seq log];
    rewrite Hw; reflexivity.
Qed.


Lemma exec_begin w :
  working w = None ->
  exec E Begin w =
    match rejects E (committed w) Begin with
    | Some msg => (Throw msg, logged (EvSql Begin) w)
    | None => (Normal [],
               {| committed := committed w; working := Some (committed w);
                  order_seq := order_seq w; log := log w ++ [EvSql Begin] |})
    end.
Proof.
  intros Hw. unfold exec, bind, emit, view, begin_txn, logged.
  cbn [working committed order_seq log]. rewrite Hw. reflexivity.
Qed.

Lemma exec_commit w t :
  working w = Some t ->
  exec E Commit w =
    match rejects E t Commit with
    | Some msg => (Throw msg, logged (EvSql Commit) w)
    | None => (Normal [],
               {| committed := t; working := None;
                  order_seq := order_seq w; log := log w ++ [EvSql Commit] |})
    end.
Proof.
  intros Hw. unfold exec, bind, emit, view, commit_txn, logged.
  cbn [working committed order_seq log]. rewrite Hw. reflexivity.
Qed.

Lemma exec_rollback w :
  exec E Rollback w =
    (Normal [],
     {| committed := committed w; working := None;
        order_seq := order_seq w; log := log w ++ [EvSql Rollback] |}).
Proof. reflexivity. Qed.

Variable i : Z.

Lemma insert_track_step track w t :
  working w = Some t ->
  exists r w', Ledger.insert_track E (JNum (of_Z i)) track w = (r, w') /\
    committed w' = committed w /\ order_seq w' = order_seq w /\
    oracle_calls (log w') = oracle_calls (log w) /\
    if readable track && is_none (rejects E t (tracking_insert i track))
    then r = Normal tt /\ working w' = Some (add_tracking (tracking_of i track) t)
    else (exists msg, r = Throw msg) /\ working w' = Some t.
Proof.
  intros Hw. unfold Ledger.insert_track.
  destruct (readable track) eqn:Hr.
  - assert (Hn : get_prop track "tracking_number" = Normal (field track "tracking_number"))
      by (destruct track; try discriminate Hr; reflexivity).
    assert (Hc : get_prop track "carrier" = Normal (field track "carrier"))
      by (destruct track; try discriminate Hr; reflexivity).
    rewrite Hn, Hc. unfold bind at 1 2 3. unfold lift.
    rewrite (exec_in_txn _ w t Hw) by reflexivity.
    fold (tracking_insert i track).
    destruct (rejects E t (tracking_insert i track)) eqn:Hrej.
    + eexists _, _; split; [reflexivity|]. cbn.
      split; [reflexivity|]. split; [reflexivity|].
      split; [now apply oracle_calls_app|]. eauto.
    + unfold tracking_insert, run, with_int. rewrite int_param_of_Z.
      eexists _, _; split; [reflexivity|]. cbn.
      split; [reflexivity|]. split; [reflexivity|].
      split; [now apply oracle_calls_app|]. auto.
  - assert (Hn : exists msg, get_prop track "tracking_number" = Throw msg)
      by (destruct track; try discriminate Hr; eexists; reflexivity).
    destruct Hn as [msg Hn]. rewrite Hn. unfold bind, lift.
    eexists _, _; split; [reflexivity|].
    split; [reflexivity|]. split; [reflexivity|]. split; [reflexivity|].
    cbn. eauto.
Qed.

Lemma insert_loop items : forall w t,
  working w = Some t ->
  exists r w' t', for_each items (Ledger.insert_track E (JNum (of_Z i))) w = (r, w') /\
    committed w' = committed w /\ order_seq w' = order_seq w /\
    oracle_calls (log w') = oracle_calls (log w) /\
    working w' = Some t' /\ orders t' = orders t /\
    if loop_accepts E i t items
    then r = Normal tt /\ t' = add_trackings i items t
    else exists msg, r = Throw msg.
Proof.
  induction items as [|x rest IH]; intros w t Hw.
  - exists (Normal tt), w, t. cbn. unfold add_trackings. cbn. rewrite app_nil_r.
    destruct t; cbn in *; auto 10.
  - destruct (insert_track_step x w t Hw) as (r1 & w1 & Hrun & Hc & Hs & Ho & Hcase).
    cbn [for_each loop_accepts]. unfold bind at 1. rewrite Hrun.
    destruct (readable x && is_none (rejects E t (tracking_insert i x))).
    + destruct Hcase as [-> Hw1].
      destruct (IH w1 _ Hw1) as (r & w' & t' & Hrun' & Hc' & Hs' & Ho' & Hw' & Hord & Hcase').
      exists r, w', t'. split; [exact Hrun'|].
      split; [congruence|]. split; [congruence|]. split; [congruence|].
      split; [exact Hw'|]. split; [exact Hord|].
      cbn [andb].
      destruct (loop_accepts E i _ rest); [|exact Hcase'].
      destruct Hcase' as [-> ->]. split; [reflexivity|].
      unfold add_trackings, add_tracking. cbn. now rewrite <- app_assoc.
    + destruct Hcase as [[msg ->] Hw1].
      exists (Throw msg), w1, t. cbn. eauto 10.
Qed.

Lemma insert_trackings_outcome v w t :
  working w = Some t ->
  exists r w' t', Ledger.insert_trackings E (JNum (of_Z i)) v w = (r, w') /\
    committed w' = committed w /\ order_seq w' = order_seq w /\
    oracle_calls (log w') = oracle_calls (log w) /\
    working w' = Some t' /\ orders t' = orders t /\
    forall items, tracking_items v = Some items ->
      if loop_accepts E i t items
      then r = Normal tt /\ t' = add_trackings i items t
      else exists msg, r = Throw msg.
Proof.
  intros Hw. unfold Ledger.insert_trackings.
  assert (Hskip : exists r w' t', ret tt w = (r, w') /\
    committed w' = committed w /\ order_seq w' = order_seq w /\
    oracle_calls (log w') = oracle_calls (log w) /\
    working w' = Some t' /\ orders t' = orders t /\
    forall items, Some [] = Some items ->
      if loop_accepts E i t items
      then r = Normal tt /\ t' = add_trackings i items t
      else exists msg, r = Throw msg).
  { exists (Normal tt), w, t. cbn. repeat (split; [auto|]).
    intros items [= <-]. cbn. split; auto. unfold add_trackings. cbn.
    rewrite app_nil_r. now destruct t. }
  assert (Hskip' : forall v', tracking_items v' = None ->
    exists r w' t', ret tt w = (r, w') /\
    committed w' = committed w /\ order_seq w' = order_seq w /\
    oracle_calls (log w') = oracle_calls (log w) /\
    working w' = Some t' /\ orders t' = orders t /\
    forall items, tracking_items v' = Some items ->
      if loop_accepts E i t items
      then r = Normal tt /\ t' = add_trackings i items t
      else exists msg, r = Throw msg).
  { intros v' Hv'. exists (Normal tt), w, t. cbn. repeat (split; [auto|]).
    intros items Habs. congruence. }
  destruct v as [| |b|n|s|items|fields].
  - exact Hskip.
  - exact Hskip.
  - destruct b; cbn; now apply (Hskip' (JBool true)).
  - destruct (truthy (JNum n)); cbn; now apply (Hskip' (JNum n)).
  - destruct (truthy (JStr s)) eqn:Ht; unfold bind, lift, ret; cbn [get_length];
      [|now apply (Hskip' (JStr s))].
    destruct (js_gt0 _); [|now apply (Hskip' (JStr s))].
    cbn [iterate].
    destruct (insert_loop (chars s) w t Hw) as (r & w' & t' & Hrun & H1 & H2 & H3 & H4 & H5 & _).
    exists r, w', t'. repeat (split; [assumption|]). discriminate.
  - cbn [truthy get_length]. unfold bind, lift, ret.
    rewrite js_gt0_of_Z.
    destruct items as [|x rest].
    + cbn. exact Hskip.
    + replace (0 <? Z.of_nat (Datatypes.length (x :: rest))) with true
        by (symmetry; apply Z.ltb_lt; cbn [Datatypes.length]; lia).
      cbn [iterate].
      destruct (insert_loop (x :: rest) w t Hw) as (r & w' & t' & Hrun & H1 & H2 & H3 & H4 & H5 & H6).
      exists r, w', t'. repeat (split; [assumption|]).
      intros items [= <-]. exact H6.
  - cbn [truthy get_length get_prop]. unfold bind, lift, ret.
    destruct (js_gt0 _); [|now apply (Hskip' (JObj fields))].
    cbn [iterate].
    exists (Throw "trackings is not iterable"), w, t. repeat (split; [auto|]).
    discriminate.
Qed.

End Statements.

Section Create.
Variable E : Env.

Lemma getDollarRate_run w :
  exists w', Ledger.getDollarRate E w = (Normal (value_of (Ledger.getDollarRate E)), w') /\
    committed w' = committed w /\ working w' = working w /\
    order_seq w' = order_seq w /\
    oracle_calls (log w') = S (oracle_calls (log w)).
Proof.
  assert (Hlog : forall l e, oracle_calls ((l ++ [EvOracleGet]) ++ [EvConsoleError e]) = S (oracle_calls l)).
  { intros l e. rewrite oracle_calls_app by reflexivity.
    unfold oracle_calls. rewrite filter_app, length_app. cbn. lia. }
  assert (Hlog' : forall l, oracle_calls (l ++ [EvOracleGet]) = S (oracle_calls l)).
  { intros l. unfold oracle_calls. rewrite filter_app, length_app. cbn. lia. }
  unfold value_of, Ledger.getDollarRate, axios_get_data, try_catch, bind,
    console_error, emit, throw, ret, lift, logged.
  destruct (oracle E) as [msg|data].
  - cbn. eexists; split; [reflexivity|]. cbn. auto.
  - destruct (truthy data) eqn:Ht.
    + assert (Hg : get_prop data "conversion_rate" = Normal (field data "conversion_rate"))
        by (destruct data; try discriminate Ht; reflexivity).
      rewrite Hg. destruct (truthy (field data "conversion_rate"));
        eexists; (split; [reflexivity|]); cbn; auto.
    + rewrite Ht. eexists; split; [reflexivity|]. cbn. auto.
Qed.

Lemma resolve_rate_run cur cr w :
  exists w', Ledger.resolve_rate E cur cr w = (Normal (rate_of E cur cr), w') /\
    committed w' = committed w /\ working w' = working w /\
    order_seq w' = order_seq w /\
    oracle_calls (log w') =
      (oracle_calls (log w) + if asks_oracle cur cr then 1 else 0)%nat.
Proof.
  unfold rate_of, asks_oracle, Ledger.resolve_rate.
  destruct (strict_eq_str cur "USD"); [destruct (truthy cr)|]; cbn [andb negb].
  - exists w. unfold value_of, ret. repeat (split; [reflexivity|]). lia.
  - destruct (getDollarRate_run w) as (w' & Hrun & H1 & H2 & H3 & H4).
    exists w'. repeat (split; [assumption|]). lia.
  - exists w. unfold value_of, ret. repeat (split; [reflexivity|]). lia.
Qed.

Lemma post_orders_outcome fields w :
  working w = None ->
  let t := committed w in
  let i := order_seq w in
  exists resp w',
    Ledger.post_orders E (create_request fields) w = (Normal resp, w') /\
    working w' = None /\
    (asks_oracle (lookup "currency" fields) (lookup "custom_rate" fields) = false ->
     oracle_calls (log w') = oracle_calls (log w)) /\
    ((resp = created i /\
      orders (committed w') = (orders t ++ [order_of E i fields])%list /\
      forall items, tracking_items (lookup "trackings" fields) = Some items ->
        create_accepted E t i fields items = true /\
        committed w' = add_trackings i items (add_order (order_of E i fields) t))
     \/
     ((exists msg, resp = json 500 (Ledger.error_body msg)) /\
      committed w' = t /\
      forall items, tracking_items (lookup "trackings" fields) = Some items ->
        create_accepted E t i fields items = false)).
Proof.
  intros Hw t i. subst t i.
  unfold Ledger.post_orders, create_request, create_accepted. cbn [body].
  cbv beta iota delta [bind try_catch try_finally pool_connect client_release emit ret].
  rewrite exec_begin by exact Hw.
  cbn [logged committed working order_seq log].
  destruct (rejects E (committed w) Begin) eqn:HB.
  { (* the store refuses BEGIN *)
    rewrite exec_rollback.
    eexists _, _; split; [reflexivity|]. cbn [logged committed working order_seq log].
    split; [reflexivity|]. split.
    { intros _. rewrite !oracle_calls_app by reflexivity. reflexivity. }
    right. split; [eauto|]. split; [reflexivity|]. intros; reflexivity. }
  cbn [is_none andb].
  match goal with |- context [Ledger.resolve_rate E ?c ?r ?w0] =>
    destruct (resolve_rate_run c r w0) as (w1 & Hrate & Hc1 & Hw1 & Hs1 & Ho1) end.
  rewrite Hrate.
  cbn [logged working committed order_seq log] in Hc1, Hw1, Hs1, Ho1.
  rewrite !oracle_calls_app in Ho1 by reflexivity.
  rewrite (exec_in_txn _ _ w1 _ Hw1) by reflexivity.
  fold (order_insert E fields).
  destruct (rejects E (committed w) (order_insert E fields)) eqn:HI.
  { rewrite exec_rollback.
    eexists _, _; split; [reflexivity|]. cbn [logged committed working order_seq log].
    split; [reflexivity|]. split.
    { intros Hno. rewrite Hno in Ho1.
      rewrite !oracle_calls_app by reflexivity. rewrite Ho1. lia. }
    right. split; [eauto|]. split; [assumption|]. intros; reflexivity. }
  cbn [is_none andb].
  unfold order_insert at 1. cbn [run].
  fold (order_of E (order_seq w1) fields). rewrite Hs1.
  set (o := order_of E (order_seq w) fields).
  replace (get_prop (nth 0 [JObj (project ["id"; "exchange_rate"] (order_columns o))] JUndefined) "id")
    with (Normal (JNum (of_Z (order_seq w)))) by reflexivity.
  cbv beta iota delta [lift].
  match goal with |- context [Ledger.insert_trackings E _ ?v ?w2] =>
    destruct (insert_trackings_outcome E (order_seq w) v w2 (add_order o (committed w)) eq_refl)
      as (r & w3 & t3 & Hrun & Hc3 & Hs3 & Ho3 & Hw3 & Hord3 & Hcase) end.
  rewrite Hrun.
  cbn [logged working committed order_seq log] in Hc3, Hs3, Ho3.
  rewrite !oracle_calls_app in Ho3 by reflexivity.
  destruct r as [[]|msg].
  - (* every tracking inserted *)
    rewrite (exec_commit _ w3 t3 Hw3).
    destruct (rejects E t3 Commit) eqn:HC.
    + rewrite exec_rollback.
      eexists _, _; split; [reflexivity|]. cbn [logged committed working order_seq log].
      split; [reflexivity|]. split.
      { intros Hno. rewrite Hno in Ho1.
        rewrite !oracle_calls_app by reflexivity. rewrite Ho3, Ho1. lia. }
      right. split; [eauto|]. split; [congruence|].
      intros items Hitems. specialize (Hcase items Hitems).
      destruct (loop_accepts E (order_seq w) (add_order o (committed w)) items);
        [|reflexivity].
      destruct Hcase as [_ ->] in HC. now rewrite HC.
    + eexists _, _; split; [reflexivity|]. cbn [logged committed working order_seq log].
      split; [reflexivity|]. split.
      { intros Hno. rewrite Hno in Ho1.
        rewrite !oracle_calls_app by reflexivity. rewrite Ho3, Ho1. lia. }
      left. split; [reflexivity|]. split; [exact Hord3|].
      intros items Hitems. specialize (Hcase items Hitems).
      destruct (loop_accepts E (order_seq w) (add_order o (committed w)) items).
      * destruct Hcase as [_ ->] in HC |- *. now rewrite HC.
      * destruct Hcase as [? [=]].
  - rewrite exec_rollback.
    eexists _, _; split; [reflexivity|]. cbn [logged committed working order_seq log].
    split; [reflexivity|]. split.
    { intros Hno. rewrite Hno in Ho1.
      rewrite !oracle_calls_app by reflexivity. rewrite Ho3, Ho1. lia. }
    right. split; [eauto|]. split; [congruence|].
    intros items Hitems. specialize (Hcase items Hitems).
    destruct (loop_accepts E (order_seq w) (add_order o (committed w)) items);
      [|reflexivity].
    destruct Hcase as [[=] _].
Qed.
End Create.

(** ** When the creation is accepted *)

Lemma loop_accepts_quiet (E : Env) (i : Z) (items : list JsVal) :
  accepts_all E -> forallb readable items = true ->
  forall t, loop_accepts E i t items = true.
Proof.
  intros Hall. induction items as [|x rest IH]; intros Hr t; [reflexivity|].
  cbn in Hr |- *. apply andb_prop in Hr as [Hx Hrest].
  rewrite Hx, Hall. cbn. now apply IH.
Qed.

Lemma loop_accepts_refused (E : Env) (i : Z) (item : JsVal) (items : list JsVal) :
  In item items ->
  (forall t, rejects E t (tracking_insert i item) <> None) ->
  forall t, loop_accepts E i t items = false.
Proof.
  intros Hin Href. induction items as [|x rest IH]; intros t; [destruct Hin|].
  cbn. destruct Hin as [-> | Hin].
  - specialize (Href t). destruct (rejects E t (tracking_insert i item));
      [|congruence].
    cbn. now rewrite andb_false_r.
  - rewrite IH by assumption. now rewrite andb_false_r.
Qed.

Lemma loop_accepts_unreadable (E : Env) (i : Z) (item : JsVal) (items : list JsVal) :
  In item items -> readable item = false ->
  forall t, loop_accepts E i t items = false.
Proof.
  intros Hin Hr. induction items as [|x rest IH]; intros t; [destruct Hin|].
  cbn. destruct Hin as [-> | Hin].
  - now rewrite Hr.
  - rewrite IH by assumption. now rewrite andb_false_r.
Qed.

Lemma create_accepted_quiet (E : Env) (t : Tables) (i : Z)
      (fields : list (string * JsVal)) (items : list JsVal) :
  accepts_all E -> forallb readable items = true ->
  create_accepted E t i fields items = true.
Proof.
  intros Hall Hr. unfold create_accepted.
  rewrite !Hall, loop_accepts_quiet by assumption. reflexivity.
Qed.

Lemma create_accepted_refused (E : Env) (t : Tables) (i : Z)
      (fields : list (string * JsVal)) (item : JsVal) (items : list JsVal) :
  In item items ->
  (forall t', rejects E t' (tracking_insert i item) <> None) ->
  create_accepted E t i fields items = false.
Proof.
  intros Hin Href. unfold create_accepted.
  rewrite (loop_accepts_refused E i item items Hin Href).
  now rewrite andb_false_r.
Qed.

(** ** The rate *)

Lemma rate_of_local (E : Env) (cur cr : JsVal) :
  strict_eq_str cur "USD" = false -> rate_of E cur cr = JNum (of_Z 1).
Proof.
  intros H. unfold rate_of, value_of, Ledger.resolve_rate. now rewrite H.
Qed.

Lemma rate_of_custom (E : Env) (cr : JsVal) :
  truthy cr = true -> rate_of E (JStr "USD") cr = JNum (parseFloat cr).
Proof.
  intros H. unfold rate_of, value_of, Ledger.resolve_rate.
  cbn [strict_eq_str String.eqb Ascii.eqb Bool.eqb]. now rewrite H.
Qed.

Lemma rate_of_oracle (E : Env) (cr : JsVal) :
  truthy cr = false ->
  rate_of E (JStr "USD") cr = value_of (Ledger.getDollarRate E).
Proof.
  intros H. unfold rate_of, Ledger.resolve_rate.
  cbn [strict_eq_str String.eqb Ascii.eqb Bool.eqb]. now rewrite H.
Qed.

Lemma dollar_rate_fallback (E : Env) :
  oracle_failed (oracle E) ->
  value_of (Ledger.getDollarRate E) = JNum Ledger.fallback_rate.
Proof.
  intros Hfail.
  unfold value_of, Ledger.getDollarRate, axios_get_data, try_catch, bind,
    console_error, emit, throw, ret, lift, logged.
  inversion Hfail as [msg Ho | data Hdata Ho | fields Hmiss Ho]; clear Hfail.
  - reflexivity.
  - destruct data; try reflexivity.
    + destruct b; reflexivity.
    + destruct (truthy (JNum n)) eqn:Ht; [reflexivity|].
      now rewrite Ht.
    + destruct (truthy (JStr s)) eqn:Ht; [reflexivity|].
      now rewrite Ht.
    + now elim (Hdata fields).
  - cbn [truthy get_prop]. rewrite Hmiss. reflexivity.
Qed.

Lemma getDollarRate_fallback (E : Env) (w : World) :
  oracle_failed (oracle E) ->
  Ledger.getDollarRate E w =
    (Normal (JNum Ledger.fallback_rate),
     logged (EvConsoleError "Usando tasa respaldo 26.60") (logged EvOracleGet w)).
Proof.
  intros Hfail.
  unfold Ledger.getDollarRate, axios_get_data, try_catch, bind,
    console_error, emit, throw, ret, lift.
  inversion Hfail as [msg Ho | data Hdata Ho | fields Hmiss Ho]; clear Hfail.
  - reflexivity.
  - destruct data; try reflexivity.
    + destruct b; reflexivity.
    + destruct (truthy (JNum n)) eqn:Ht; [reflexivity|].
      now rewrite Ht.
    + destruct (truthy (JStr s)) eqn:Ht; [reflexivity|].
      now rewrite Ht.
    + now elim (Hdata fields).
  - cbn [truthy get_prop]. rewrite Hmiss. reflexivity.
Qed.

(** ** Dispatch *)

(** A POST on /api/orders runs the first registration, never the second. *)
Lemma handle_create (E : Env) (fields : list (string * JsVal)) :
  Ledger.handle E (create_request fields)
  = Ledger.post_orders E (create_request fields).
Proof. reflexivity. Qed.

Lemma handle_rate (E : Env) :
  Ledger.handle E rate_request = Ledger.get_rate E rate_request.
Proof. reflexivity. Qed.

Lemma handle_list (E : Env) :
  Ledger.handle E list_request = Ledger.get_orders E list_request.
Proof. reflexivity. Qed.

(** ** The create route of the simplified variant *)

Lemma lempiras_post_orders_outcome (E : Env) (fields : list (string * JsVal)) (w : World) :
  working w = None ->
  exists resp w',
    Lempiras.handle E (create_request fields) w = (Normal resp, w') /\
    working w' = None /\
    oracle_calls (log w') = oracle_calls (log w) /\
    ((resp = json 200 (Ledger.success "Pedido guardado") /\
      orders (committed w') =
        (orders (committed w) ++
         [new_order (order_seq w) (lookup "purchase_date" fields)
                    (lookup "original_amount" fields)
                    (JStr "HNL") (JNum (of_Z 1))])%list)
     \/
     ((exists msg, resp = json 500 (Ledger.error_body msg)) /\
      committed w' = committed w)) /\
    (forall items,
       tracking_items (lookup "trackings" fields) = Some items ->
       accepts_all E -> forallb readable items = true ->
       resp = json 200 (Ledger.success "Pedido guardado")).
Proof.
  intros Hw.
  change (Lempiras.handle E (create_request fields))
    with (Lempiras.post_orders E (create_request fields)).
  unfold Lempiras.post_orders, create_request. cbn [body].
  cbv beta iota delta [bind try_catch try_finally pool_connect client_release emit ret].
  rewrite exec_begin by exact Hw.
  cbn [logged committed working order_seq log].
  destruct (rejects E (committed w) Begin) eqn:HB.
  { rewrite exec_rollback.
    eexists _, _; split; [reflexivity|]. cbn [logged committed working order_seq log].
    split; [reflexivity|]. split.
    { rewrite !oracle_calls_app by reflexivity. reflexivity. }
    split; [right; eauto|].
    intros items _ Hall _. now rewrite Hall in HB. }
  rewrite (exec_in_txn E _ _ (committed w)) by reflexivity.
  cbn [logged committed working order_seq log].
  match goal with |- context [rejects E (committed w) ?s] =>
    destruct (rejects E (committed w) s) eqn:HI end.
  { rewrite exec_rollback.
    eexists _, _; split; [reflexivity|]. cbn [logged committed working order_seq log].
    split; [reflexivity|]. split.
    { rewrite !oracle_calls_app by reflexivity. reflexivity. }
    split; [right; eauto|].
    intros items _ Hall _. now rewrite Hall in HI. }
  cbn [run].
  set (o := new_order (order_seq w) _ _ _ _).
  replace (get_prop (nth 0 [JObj (project ["id"] (order_columns o))] JUndefined) "id")
    with (Normal (JNum (of_Z (order_seq w)))) by reflexivity.
  cbv beta iota delta [lift].
  match goal with |- context [Ledger.insert_trackings E _ ?v ?w2] =>
    destruct (insert_trackings_outcome E (order_seq w) v w2 (add_order o (committed w)) eq_refl)
      as (r & w3 & t3 & Hrun & Hc3 & Hs3 & Ho3 & Hw3 & Hord3 & Hcase) end.
  rewrite Hrun.
  cbn [logged working committed order_seq log] in Hc3, Hs3, Ho3.
  rewrite !oracle_calls_app in Ho3 by reflexivity.
  destruct r as [[]|msg].
  - rewrite (exec_commit _ w3 t3 Hw3).
    destruct (rejects E t3 Commit) eqn:HC.
    + rewrite exec_rollback.
      eexists _, _; split; [reflexivity|]. cbn [logged committed working order_seq log].
      split; [reflexivity|]. split.
      { rewrite !oracle_calls_app by reflexivity. exact Ho3. }
      split; [right; split; [eauto|congruence]|].
      intros items _ Hall _. now rewrite Hall in HC.
    + eexists _, _; split; [reflexivity|]. cbn [logged committed working order_seq log].
      split; [reflexivity|]. split.
      { rewrite !oracle_calls_app by reflexivity. exact Ho3. }
      split; [left; split; [reflexivity|exact Hord3]|].
      reflexivity.
  - rewrite exec_rollback.
    eexists _, _; split; [reflexivity|]. cbn [logged committed working order_seq log].
    split; [reflexivity|]. split.
    { rewrite !oracle_calls_app by reflexivity. exact Ho3. }
    split; [right; split; [eauto|congruence]|].
    intros items Hitems Hall Hr. specialize (Hcase items Hitems).
    rewrite loop_accepts_quiet in Hcase by assumption.
    destruct Hcase as [[=] _].
Qed.

(** ** The listing *)

Lemma insert_desc_perm (o : OrderRow) (l : list OrderRow) :
  Permutation (o :: l) (insert_desc o l).
Proof.
  induction l as [|x rest IH]; cbn; [reflexivity|].
  destruct (id x <? id o); [reflexivity|].
  rewrite perm_swap. now apply perm_skip.
Qed.

Lemma order_by_id_desc_perm (l : list OrderRow) :
  Permutation l (order_by_id_desc l).
Proof.
  induction l as [|o rest IH]; cbn; [reflexivity|].
  rewrite <- insert_desc_perm. now apply perm_skip.
Qed.

Lemma insert_desc_sorted (o : OrderRow) (l : list OrderRow) :
  newest_first l -> newest_first (insert_desc o l).
Proof.
  induction l as [|x rest IH]; cbn; intros Hs.
  - split; [constructor|exact I].
  - destruct Hs as [Hall Hs]. destruct (id x <? id o) eqn:Hlt.
    + apply Z.ltb_lt in Hlt. cbn. split; [|split; assumption].
      constructor; [lia|].
      eapply Forall_impl; [|exact Hall]. cbn. intros; lia.
    + apply Z.ltb_ge in Hlt. cbn. split; [|now apply IH].
      apply Forall_forall. intros y Hy.
      apply (Permutation_in _ (Permutation_sym (insert_desc_perm o rest))) in Hy.
      destruct Hy as [<- | Hy]; [exact Hlt|].
      rewrite Forall_forall in Hall. now apply Hall.
Qed.

Lemma order_by_id_desc_sorted (l : list OrderRow) :
  newest_first (order_by_id_desc l).
Proof.
  induction l as [|o rest IH]; cbn; [exact I|now apply insert_desc_sorted].
Qed.

Lemma json_agg_none (o : OrderRow) (ts : list TrackingRow) :
  (forall r, In r ts -> order_id r <> id o) ->
  json_agg o ts = JArr [null_placeholder].
Proof.
  intros Hnone. unfold json_agg, left_join.
  replace (filter (fun r => id o =? order_id r) ts) with (@nil TrackingRow);
    [reflexivity|].
  symmetry. induction ts as [|r rest IH]; [reflexivity|].
  cbn. destruct (id o =? order_id r) eqn:Heq.
  - apply Z.eqb_eq in Heq. exfalso. apply (Hnone r); [now left|congruence].
  - apply IH. intros r' Hr'. apply Hnone. now right.
Qed.

Lemma get_orders_run (E : Env) (w : World) :
  working w = None -> rejects E (committed w) SelectOrders = None ->
  Ledger.handle E list_request w =
    (Normal (json 200 (JArr (select_orders (committed w)))),
     {| committed := committed w; working := None;
        order_seq := order_seq w; log := (log w ++ [EvSql SelectOrders])%list |}).
Proof.
  intros Hw Hacc. rewrite handle_list. unfold Ledger.get_orders.
  cbv beta iota delta [bind try_catch ret].
  rewrite exec_autocommit by (assumption || reflexivity).
  now rewrite Hacc.
Qed.

(** The part of the contract of the listing that holds: every order, once,
    newest id first, each with a [trackings] array. *)
Lemma listing_complete_newest_first (t : Tables) :
  exists sorted,
    Permutation (orders t) sorted /\ newest_first sorted /\
    select_orders t =
      map (fun o => JObj (order_columns o ++
                          [("trackings", json_agg o (trackings t))])%list) sorted /\
    forall o, exists items, json_agg o (trackings t) = JArr items.
Proof.
  exists (order_by_id_desc (orders t)).
  split; [apply order_by_id_desc_perm|].
  split; [apply order_by_id_desc_sorted|].
  split; [reflexivity|].
  intros o. unfold json_agg. eauto.
Qed.

(** ** Updates and deletions *)

Lemma Forall2_map_self {A} (R : A -> A -> Prop) (f : A -> A) (l : list A) :
  (forall x, In x l -> R x (f x)) -> Forall2 R l (map f l).
Proof.
  induction l as [|x rest IH]; intros H; cbn; constructor.
  - apply H. now left.
  - apply IH. intros y Hy. apply H. now right.
Qed.

Lemma int_param_text (s : string) (i : Z) :
  int_of_text s = Some i -> int_param (JStr s) = Normal i.
Proof. intros H. unfold int_param. now rewrite H. Qed.

Lemma param_js_or_zero (v : JsVal) :
  param (js_or v (JNum (of_Z 0))) = js_or v (JNum (of_Z 0)).
Proof.
  unfold js_or. destruct (truthy v) eqn:Ht; [|reflexivity].
  destruct v; try discriminate Ht; reflexivity.
Qed.

Lemma update_financials_absent (a f s : JsVal) (i : Z) (t : Tables) :
  (forall r, In r (orders t) -> id r <> i) -> update_financials a f s i t = t.
Proof.
  intros Habs. unfold update_financials. destruct t as [os ts]. cbn in *.
  f_equal. rewrite <- (map_id os) at 2. apply map_ext_in.
  intros r Hr. specialize (Habs r Hr).
  destruct (id r =? i) eqn:Heq; [|reflexivity].
  apply Z.eqb_eq in Heq. contradiction.
Qed.

Lemma filter_none {A} (p : A -> bool) (l : list A) :
  (forall x, In x l -> p x = false) -> filter p l = [].
Proof.
  induction l as [|x rest IH]; intros H; cbn; [reflexivity|].
  rewrite (H x) by now left. apply IH. intros y Hy. apply H. now right.
Qed.

Lemma filter_all {A} (p : A -> bool) (l : list A) :
  (forall x, In x l -> p x = true) -> filter p l = l.
Proof.
  induction l as [|x rest IH]; intros H; cbn; [reflexivity|].
  rewrite (H x) by now left. f_equal. apply IH. intros y Hy. apply H. now right.
Qed.

(** The first registration answers every creation with 200 or 500: it has
    no 400. *)
Lemma post_orders_never_400 (E : Env) (w : World)
      (fields : list (string * JsVal)) :
  working w = None ->
  exists resp w',
    Ledger.handle E (create_request fields) w = (Normal resp, w') /\
    (status resp = 200%nat \/ status resp = 500%nat).
Proof.
  intros Hw. rewrite handle_create.
  destruct (post_orders_outcome E fields w Hw)
    as (resp & w' & Hrun & _ & _ & Hcase).
  exists resp, w'. split; [exact Hrun|].
  destruct Hcase as [(-> & _) | ((msg & ->) & _)]; [now left|now right].
Qed.

(** ** The second registration of POST /api/orders *)

(** It is the one that checks the required fields: a falsy date or amount
    is answered 400, and nothing is touched. *)
Lemma second_registration_validates (E : Env) (w : World)
      (fields : list (string * JsVal)) :
  truthy (lookup "purchase_date" fields) = false \/
  truthy (lookup "original_amount" fields) = false ->
  Ledger.post_orders_second E (create_request fields) w
  = (Normal (json 400 (Ledger.error_body "Faltan datos obligatorios (fecha o monto)")),
     w).
Proof.
  intros H. unfold Ledger.post_orders_second, create_request. cbn [body].
  destruct H as [-> | ->]; [reflexivity|].
  now rewrite orb_true_r.
Qed.

(** It is also the one whose answer carries the rate and the total. *)
Lemma second_registration_answers_total :
  fst (Ledger.post_orders_second offline (create_request hnl_order) empty_world)
  = Normal (json 201 (JObj [("success", JBool true);
                            ("message", JStr "Pedido guardado exitosamente");
                            ("order_id", JNum (of_Z 1));
                            ("tasa_usada", JNum (of_Z 1));
                            ("total_en_lempiras", JStr "2500.00")])).
Proof. reflexivity. Qed.

End Facts.

(* ===================================================================== *)
(** * The properties of the ledger *)
(* ===================================================================== *)

Module Properties.
Import Js Db Runtime Express Props Facts.

(** C1 (create-order is atomic).  A POST on /api/orders whose body carries
    the trackings [items] always gets an answer, and leaves no transaction
    open.  When the store takes every statement of the request, the answer
    is the success answer and the committed tables gain exactly one order
    row, numbered by the sequence, and exactly one tracking row per item,
    each referencing that order, in the order of the input (so, when no
    older tracking bears that number, the trackings of the new order are
    exactly [length items]).  When the store refuses any statement, or an
    item cannot be read, the answer is a 500 and the committed tables are
    the ones from before the request: neither the order row nor any
    tracking inserted so far persists.  In particular this is so as soon
    as the store refuses the INSERT of one tracking of the request. *)
Theorem create_order_atomic (E : Env) (w : World)
        (fields : list (string * JsVal)) (items : list JsVal) :
  working w = None ->
  tracking_items (lookup "trackings" fields) = Some items ->
  exists resp w',
    Ledger.handle E (create_request fields) w = (Normal resp, w') /\
    working w' = None /\
    (create_accepted E (committed w) (order_seq w) fields items = true ->
       resp = created (order_seq w) /\
       (exists o, id o = order_seq w /\
                  orders (committed w') = (orders (committed w) ++ [o])%list) /\
       trackings (committed w') =
         (trackings (committed w) ++ map (tracking_of (order_seq w)) items)%list /\
       List.length (map (tracking_of (order_seq w)) items) = List.length items /\
       Forall (fun r => order_id r = order_seq w)
              (map (tracking_of (order_seq w)) items) /\
       ((forall r, In r (trackings (committed w)) -> order_id r <> order_seq w) ->
        List.length (filter (fun r => order_id r =? order_seq w)
                            (trackings (committed w')))
        = List.length items)) /\
    (create_accepted E (committed w) (order_seq w) fields items = false ->
       status resp = 500%nat /\ committed w' = committed w) /\
    (forall item,
       In item items ->
       (forall t, rejects E t (tracking_insert (order_seq w) item) <> None) ->
       status resp = 500%nat /\ committed w' = committed w).
Proof.
  intros Hw Hitems. rewrite handle_create.
  destruct (post_orders_outcome E fields w Hw)
    as (resp & w' & Hrun & Hw' & _ & Hcase).
  exists resp, w'. split; [exact Hrun|]. split; [exact Hw'|].
  assert (Hfail : create_accepted E (committed w) (order_seq w) fields items = false ->
                  status resp = 500%nat /\ committed w' = committed w).
  { intros Hacc. destruct Hcase as [(_ & _ & Hok) | ((msg & ->) & Hsame & _)].
    - destruct (Hok items Hitems) as [Hyes _]. congruence.
    - split; [reflexivity|exact Hsame]. }
  split; [|split; [exact Hfail|]].
  - intros Hacc. destruct Hcase as [(-> & Hord & Hok) | (_ & _ & Hno)].
    + destruct (Hok items Hitems) as [_ Hcommitted].
      assert (Hnew : Forall (fun r => order_id r = order_seq w)
                            (map (tracking_of (order_seq w)) items)).
      { apply Forall_forall. intros r Hr.
        apply in_map_iff in Hr as (x & <- & _). reflexivity. }
      split; [reflexivity|]. split.
      { exists (order_of E (order_seq w) fields). split; [reflexivity|exact Hord]. }
      split; [now rewrite Hcommitted|].
      split; [apply length_map|].
      split; [exact Hnew|].
      intros Hfresh. rewrite Hcommitted. cbn [add_trackings trackings add_order].
      rewrite filter_app, length_app.
      rewrite filter_none, filter_all.
      * cbn. now rewrite length_map.
      * intros r Hr. rewrite Forall_forall in Hnew.
        apply Z.eqb_eq. now apply Hnew.
      * intros r Hr. apply Z.eqb_neq. now apply Hfresh.
    + rewrite (Hno items Hitems) in Hacc. discriminate.
  - intros item Hin Href. apply Hfail.
    now apply create_accepted_refused with (item := item).
Qed.

Lemma create_order_atomic_witness :
  (exists resp w',
     Ledger.handle offline (create_request example_with_trackings) empty_world
       = (Normal resp, w') /\
     resp = created 1 /\
     List.length (trackings (committed w')) = 2%nat) /\
  (exists resp w',
     Ledger.handle (picky "LP001") (create_request example_with_trackings) empty_world
       = (Normal resp, w') /\
     status resp = 500%nat /\ committed w' = committed empty_world).
Proof.
  split.
  - destruct (create_order_atomic offline empty_world example_with_trackings
                two_trackings eq_refl eq_refl)
      as (resp & w' & Hrun & _ & Hok & _).
    exists resp, w'. split; [exact Hrun|].
    destruct (Hok eq_refl) as (Hresp & _ & Htr & _).
    split; [exact Hresp|]. rewrite Htr. reflexivity.
  - destruct (create_order_atomic (picky "LP001") empty_world example_with_trackings
                two_trackings eq_refl eq_refl)
      as (resp & w' & Hrun & _ & _ & _ & Href).
    exists resp, w'. split; [exact Hrun|].
    apply (Href (nth 1 two_trackings JNull)).
    + right; left; reflexivity.
    + intros t. cbn. discriminate.
Defined.

(** C2 (the rate service fails).  When the call to the rate service fails
    (the call is rejected, the body of the response is no JSON object, or
    the object has no rate), [getDollarRate] does not throw: it returns the
    fallback rate 26.60, after one call to the service and one line on the
    error console.  The quote route then answers that rate, and the
    creation of an order in USD without [custom_rate] succeeds, with the
    fallback rate stored, whenever the store takes its statements. *)
Theorem oracle_failure_falls_back (E : Env) (w : World) :
  oracle_failed (oracle E) ->
  Ledger.getDollarRate E w =
    (Normal (JNum Ledger.fallback_rate),
     logged (EvConsoleError "Usando tasa respaldo 26.60") (logged EvOracleGet w)) /\
  Ledger.handle E rate_request w =
    (Normal (json 200 (JObj [("rate", JNum Ledger.fallback_rate)])),
     logged (EvConsoleError "Usando tasa respaldo 26.60") (logged EvOracleGet w)) /\
  forall fields items,
    working w = None ->
    lookup "currency" fields = JStr "USD" ->
    lookup "custom_rate" fields = JUndefined ->
    tracking_items (lookup "trackings" fields) = Some items ->
    create_accepted E (committed w) (order_seq w) fields items = true ->
    exists w' o,
      Ledger.handle E (create_request fields) w
        = (Normal (created (order_seq w)), w') /\
      orders (committed w') = (orders (committed w) ++ [o])%list /\
      exchange_rate o = JNum Ledger.fallback_rate.
Proof.
  intros Hfail. split; [now apply getDollarRate_fallback|]. split.
  - rewrite handle_rate. unfold Ledger.get_rate, bind.
    now rewrite getDollarRate_fallback.
  - intros fields items Hw Hcur Hcr Hitems Hacc. rewrite handle_create.
    destruct (post_orders_outcome E fields w Hw)
      as (resp & w' & Hrun & _ & _ & Hcase).
    destruct Hcase as [(-> & Hord & _) | (_ & _ & Hno)].
    + exists w', (order_of E (order_seq w) fields).
      split; [exact Hrun|]. split; [exact Hord|].
      unfold order_of. cbn [exchange_rate new_order].
      rewrite Hcur, Hcr, rate_of_oracle by reflexivity.
      now rewrite dollar_rate_fallback.
    + rewrite (Hno items Hitems) in Hacc. discriminate.
Qed.

Lemma oracle_failure_falls_back_witness :
  (exists w', fst (Ledger.handle offline (create_request usd_order) empty_world)
              = Normal (created 1) /\
              Ledger.getDollarRate offline empty_world
              = (Normal (JNum Ledger.fallback_rate), w')) /\
  (exists w', Ledger.getDollarRate html_reply empty_world
              = (Normal (JNum Ledger.fallback_rate), w')) /\
  (exists w', Ledger.getDollarRate error_reply empty_world
              = (Normal (JNum Ledger.fallback_rate), w')).
Proof.
  split; [|split].
  - destruct (oracle_failure_falls_back offline empty_world
                (network_error "connect ECONNREFUSED")) as (Hrate & _ & Hcreate).
    destruct (Hcreate usd_order [] eq_refl eq_refl eq_refl eq_refl eq_refl)
      as (w' & o & Hrun & _).
    eexists. split; [now rewrite Hrun|exact Hrate].
  - destruct (oracle_failure_falls_back html_reply empty_world) as (Hrate & _).
    + apply malformed_response. discriminate.
    + eexists. exact Hrate.
  - destruct (oracle_failure_falls_back error_reply empty_world) as (Hrate & _).
    + apply missing_rate_field. reflexivity.
    + eexists. exact Hrate.
Defined.

(** C4 (required fields).  The request that carries an amount and no
    [purchase_date] is not rejected: the first registration of the route
    answers it, checks nothing, and an order row with a NULL date is
    committed.  (No creation is ever answered 400:
    [post_orders_never_400].  The check [!purchase_date ||
    !original_amount] and its 400 belong to the second registration, which
    the router never reaches: [handle_create],
    [second_registration_validates].) *)
Theorem missing_fields_not_rejected :
  exists w',
    Ledger.handle offline (create_request [("original_amount", JNum (of_Z 100))])
                  empty_world
      = (Normal (created 1), w') /\
    orders (committed w') =
      [ {| id := 1; purchase_date := JNull;
           original_amount := JNum (of_Z 100); currency := JNull;
           exchange_rate := JNum (of_Z 1);
           freight_cost_hnl := JNum (of_Z 0);
           selling_price_hnl := JNum (of_Z 0) |} ].
Proof. eexists. split; reflexivity. Qed.

(** C5 (the answer of a creation).  On the order of the example (100 USD
    at the manual rate "25.00") the answer holds [success], [message] and
    [orderId] only: no rate used and no total, although the row is stored
    with the rate 25.  (The answer with [tasa_usada] and
    [total_en_lempiras] is the one of the second registration:
    [second_registration_answers_total].) *)
Theorem answer_lacks_rate_and_total :
  exists w',
    Ledger.handle offline (create_request example_order) empty_world
      = (Normal (json 200 (JObj [("success", JBool true);
                                 ("message", JStr "Pedido guardado");
                                 ("orderId", JNum (of_Z 1))])), w') /\
    field (payload (created 1)) "tasa_usada" = JUndefined /\
    field (payload (created 1)) "total_en_lempiras" = JUndefined /\
    map exchange_rate (orders (committed w')) = [JNum (of_Z 25)].
Proof. eexists. repeat split; reflexivity. Qed.

(** C6, as stated, fails: a manual rate "-5" does not parse to a positive
    number, yet the request succeeds and the row is stored with the rate
    -5. *)
Lemma negative_custom_rate_accepted :
  let fields := [("purchase_date", JStr "2024-01-01");
                 ("original_amount", JNum (of_Z 100));
                 ("currency", JStr "USD");
                 ("custom_rate", JStr "-5")] in
  num_gt0 (parseFloat (JStr "-5")) = false /\
  exists w',
    Ledger.handle offline (create_request fields) empty_world
      = (Normal (created 1), w') /\
    map exchange_rate (orders (committed w')) = [JNum (of_Z (-5))].
Proof. split; [reflexivity|]. eexists. split; reflexivity. Qed.

(** C6, amended.  For a creation in USD with a truthy [custom_rate], the
    rate service is not called and the rate of the new row is
    [parseFloat(custom_rate)] as it is; nothing checks that value: the
    request succeeds exactly when the store takes its statements, and
    otherwise fails with a 500 that carries the message of the failure,
    the committed tables unchanged. *)
Theorem custom_rate_stored_unchecked (E : Env) (w : World)
        (fields : list (string * JsVal)) :
  working w = None ->
  lookup "currency" fields = JStr "USD" ->
  truthy (lookup "custom_rate" fields) = true ->
  exists resp w',
    Ledger.handle E (create_request fields) w = (Normal resp, w') /\
    oracle_calls (log w') = oracle_calls (log w) /\
    ((resp = created (order_seq w) /\
      exists o, orders (committed w') = (orders (committed w) ++ [o])%list /\
                exchange_rate o = JNum (parseFloat (lookup "custom_rate" fields)))
     \/
     ((exists msg, resp = json 500 (Ledger.error_body msg)) /\
      committed w' = committed w)) /\
    (forall items,
       tracking_items (lookup "trackings" fields) = Some items ->
       (resp = created (order_seq w) <->
        create_accepted E (committed w) (order_seq w) fields items = true)).
Proof.
  intros Hw Hcur Hcr. rewrite handle_create.
  destruct (post_orders_outcome E fields w Hw)
    as (resp & w' & Hrun & _ & Hcalls & Hcase).
  exists resp, w'. split; [exact Hrun|]. split.
  { apply Hcalls. unfold asks_oracle. now rewrite Hcr, andb_false_r. }
  split.
  - destruct Hcase as [(-> & Hord & _) | (Hmsg & Hsame & _)].
    + left. split; [reflexivity|].
      exists (order_of E (order_seq w) fields). split; [exact Hord|].
      unfold order_of. cbn [exchange_rate new_order].
      now rewrite Hcur, rate_of_custom.
    + right. now split.
  - intros items Hitems.
    destruct Hcase as [(-> & _ & Hok) | ((msg & ->) & _ & Hno)].
    + destruct (Hok items Hitems) as [Hacc _]. now split.
    + rewrite (Hno items Hitems). split; discriminate.
Qed.

Lemma custom_rate_stored_unchecked_witness :
  exists w',
    Ledger.handle offline (create_request example_order) empty_world
      = (Normal (created 1), w') /\
    map exchange_rate (orders (committed w')) = [JNum (of_Z 25)].
Proof.
  destruct (custom_rate_stored_unchecked offline empty_world example_order
              eq_refl eq_refl eq_refl)
    as (resp & w' & Hrun & _ & Hcase & Hiff).
  assert (Hresp : resp = created 1) by (apply (Hiff [] eq_refl); reflexivity).
  subst resp. exists w'. split; [exact Hrun|].
  destruct Hcase as [(_ & o & Hord & Hrate) | ((msg & Habs) & _)];
    [|discriminate Habs].
  cbn in Hord. rewrite Hord. cbn. now rewrite Hrate.
Defined.

(** C7 (local currency).  For a creation whose currency is "HNL" or
    absent, the rate service is not called and the row that a successful
    request adds has the exchange rate 1; a failed request adds nothing.
    The request succeeds when the store refuses nothing and the trackings
    are readable.  The same holds for the simplified variant, whatever the
    body says about currency. *)
Theorem local_currency_rate_is_one (E : Env) (w : World)
        (fields : list (string * JsVal)) :
  working w = None ->
  lookup "currency" fields = JStr "HNL" \/ lookup "currency" fields = JUndefined ->
  (exists resp w',
     Ledger.handle E (create_request fields) w = (Normal resp, w') /\
     oracle_calls (log w') = oracle_calls (log w) /\
     ((resp = created (order_seq w) /\
       exists o, orders (committed w') = (orders (committed w) ++ [o])%list /\
                 exchange_rate o = JNum (of_Z 1))
      \/
      ((exists msg, resp = json 500 (Ledger.error_body msg)) /\
       committed w' = committed w)) /\
     (forall items,
        tracking_items (lookup "trackings" fields) = Some items ->
        accepts_all E -> forallb readable items = true ->
        resp = created (order_seq w)))
  /\
  (exists resp w',
     Lempiras.handle E (create_request fields) w = (Normal resp, w') /\
     oracle_calls (log w') = oracle_calls (log w) /\
     ((resp = json 200 (Ledger.success "Pedido guardado") /\
       exists o, orders (committed w') = (orders (committed w) ++ [o])%list /\
                 exchange_rate o = JNum (of_Z 1))
      \/
      ((exists msg, resp = json 500 (Ledger.error_body msg)) /\
       committed w' = committed w)) /\
     (forall items,
        tracking_items (lookup "trackings" fields) = Some items ->
        accepts_all E -> forallb readable items = true ->
        resp = json 200 (Ledger.success "Pedido guardado"))).
Proof.
  intros Hw Hcur.
  assert (Hlocal : strict_eq_str (lookup "currency" fields) "USD" = false)
    by (destruct Hcur as [-> | ->]; reflexivity).
  split.
  - rewrite handle_create.
    destruct (post_orders_outcome E fields w Hw)
      as (resp & w' & Hrun & _ & Hcalls & Hcase).
    exists resp, w'. split; [exact Hrun|]. split.
    { apply Hcalls. unfold asks_oracle. now rewrite Hlocal. }
    split.
    + destruct Hcase as [(-> & Hord & _) | (Hmsg & Hsame & _)].
      * left. split; [reflexivity|].
        exists (order_of E (order_seq w) fields). split; [exact Hord|].
        unfold order_of. cbn [exchange_rate new_order].
        now rewrite rate_of_local.
      * right. now split.
    + intros items Hitems Hall Hr.
      destruct Hcase as [(-> & _) | (_ & _ & Hno)]; [reflexivity|].
      specialize (Hno items Hitems).
      rewrite create_accepted_quiet in Hno by assumption. discriminate.
  - destruct (lempiras_post_orders_outcome E fields w Hw)
      as (resp & w' & Hrun & _ & Hcalls & Hcase & Hok).
    exists resp, w'. split; [exact Hrun|]. split; [exact Hcalls|].
    split; [|exact Hok].
    destruct Hcase as [(-> & Hord) | Hfail]; [left|now right].
    split; [reflexivity|]. eexists. split; [exact Hord|reflexivity].
Qed.

Lemma local_currency_rate_is_one_witness :
  (exists w', Ledger.handle offline (create_request hnl_order) empty_world
              = (Normal (created 1), w')) /\
  (exists w', Lempiras.handle offline (create_request hnl_order) empty_world
              = (Normal (json 200 (Ledger.success "Pedido guardado")), w')).
Proof.
  destruct (local_currency_rate_is_one offline empty_world hnl_order
              eq_refl (or_introl eq_refl))
    as ((r1 & w1 & Hrun1 & _ & _ & Hok1) & (r2 & w2 & Hrun2 & _ & _ & Hok2)).
  split.
  - exists w1. rewrite Hrun1.
    now rewrite (Hok1 [] eq_refl (fun _ _ => eq_refl) eq_refl).
  - exists w2. rewrite Hrun2.
    now rewrite (Hok2 [] eq_refl (fun _ _ => eq_refl) eq_refl).
Defined.

(** C10 (falsy manual rate).  In a creation in USD whose [custom_rate] is
    the number 0, the empty text or null, the rate is resolved by
    [getDollarRate], and the whole request behaves (answer, store, log)
    exactly as the request with the same fields and no [custom_rate]. *)
Theorem falsy_custom_rate_ignored (E : Env) (w : World)
        (fields fields' : list (string * JsVal)) (v : JsVal) :
  v = JNum (of_Z 0) \/ v = JStr "" \/ v = JNull ->
  lookup "currency" fields = JStr "USD" ->
  lookup "custom_rate" fields = v ->
  lookup "custom_rate" fields' = JUndefined ->
  (forall key, key <> "custom_rate" -> lookup key fields' = lookup key fields) ->
  Ledger.resolve_rate E (JStr "USD") v = Ledger.getDollarRate E /\
  Ledger.handle E (create_request fields) w
    = Ledger.handle E (create_request fields') w.
Proof.
  intros Hv Hcur Hcr Hcr' Hsame.
  assert (Hfalsy : truthy v = false)
    by (destruct Hv as [-> | [-> | ->]]; reflexivity).
  split.
  - unfold Ledger.resolve_rate.
    cbn [strict_eq_str String.eqb Ascii.eqb Bool.eqb]. now rewrite Hfalsy.
  - rewrite !handle_create. unfold Ledger.post_orders, create_request.
    cbn [body]. rewrite Hcr, Hcr', !Hsame by discriminate.
    rewrite Hcur. unfold Ledger.resolve_rate.
    cbn [strict_eq_str String.eqb Ascii.eqb Bool.eqb truthy].
    now rewrite Hfalsy.
Qed.

Lemma falsy_custom_rate_ignored_witness :
  Ledger.handle offline
    (create_request (("custom_rate", JStr "") :: usd_order)) empty_world
  = Ledger.handle offline (create_request usd_order) empty_world.
Proof.
  apply (falsy_custom_rate_ignored offline empty_world
           (("custom_rate", JStr "") :: usd_order) usd_order (JStr "")).
  - right; left; reflexivity.
  - reflexivity.
  - reflexivity.
  - reflexivity.
  - intros key Hkey. cbn [lookup fst snd].
    destruct (String.eqb "custom_rate" key) eqn:Heq; [|reflexivity].
    apply String.eqb_eq in Heq. congruence.
Defined.

(** C3 (listing an order without trackings).  Where the store takes the
    query, an order without tracking is listed (it is not dropped), but
    its [trackings] is the one-element array [[{n_guia: null, carrier:
    null}]], not the empty array: the LEFT JOIN pairs it with a row of
    NULLs and json_agg keeps that row.  (What does hold of the listing is
    [listing_complete_newest_first].) *)
Theorem listing_pads_empty_order (E : Env) (w : World) (o : OrderRow) :
  working w = None ->
  rejects E (committed w) SelectOrders = None ->
  In o (orders (committed w)) ->
  (forall r, In r (trackings (committed w)) -> order_id r <> id o) ->
  exists rows w',
    Ledger.handle E list_request w = (Normal (json 200 (JArr rows)), w') /\
    exists row,
      In row rows /\
      field row "id" = JNum (of_Z (id o)) /\
      listed_trackings row = JArr [null_placeholder].
Proof.
  intros Hw Hacc Hin Hnone.
  rewrite (get_orders_run E w Hw Hacc).
  eexists _, _. split; [reflexivity|].
  exists (JObj (order_columns o ++ [("trackings", json_agg o (trackings (committed w)))])%list).
  split.
  - unfold select_orders. apply in_map_iff. exists o. split; [reflexivity|].
    apply (Permutation_in _ (order_by_id_desc_perm _)). exact Hin.
  - split; [reflexivity|].
    unfold listed_trackings. rewrite (json_agg_none o _ Hnone). reflexivity.
Qed.

Lemma listing_pads_empty_order_witness :
  exists rows w',
    Ledger.handle offline list_request one_order_world
      = (Normal (json 200 (JArr rows)), w') /\
    exists row,
      In row rows /\
      field row "id" = JNum (of_Z 1) /\
      listed_trackings row
        = JArr [JObj [("n_guia", JNull); ("carrier", JNull)]].
Proof.
  apply (listing_pads_empty_order offline one_order_world lonely_order
           eq_refl eq_refl (or_introl eq_refl)).
  intros r [].
Defined.

(** C8 (financials update).  Where the store takes the UPDATE, the request
    answers success; the trackings are untouched; every order row keeps
    its id, date, currency and exchange rate; rows with another id are
    unchanged; the rows with the id of the path get the amount of the
    body and its freight cost and selling price, each 0 when the body
    omits it; and when no row has that id the tables are unchanged. *)
Theorem financials_update_frame (E : Env) (w : World) (path_id : string) (i : Z)
        (fields : list (string * JsVal)) :
  let amount := lookup "original_amount" fields in
  let freight := js_or (lookup "freight_cost_hnl" fields) (JNum (of_Z 0)) in
  let selling := js_or (lookup "selling_price_hnl" fields) (JNum (of_Z 0)) in
  working w = None ->
  int_of_text path_id = Some i ->
  rejects E (committed w)
          (UpdateFinancials amount freight selling (JStr path_id)) = None ->
  exists w',
    Ledger.handle E (financials_request path_id fields) w
      = (Normal (json 200 (Ledger.success "Pedido actualizado")), w') /\
    trackings (committed w') = trackings (committed w) /\
    Forall2 (fun r r' =>
               same_identity r r' /\
               (id r <> i -> r' = r) /\
               (id r = i ->
                original_amount r' = param amount /\
                freight_cost_hnl r' = freight /\
                selling_price_hnl r' = selling))
            (orders (committed w)) (orders (committed w')) /\
    (lookup "freight_cost_hnl" fields = JUndefined -> freight = JNum (of_Z 0)) /\
    (lookup "selling_price_hnl" fields = JUndefined -> selling = JNum (of_Z 0)) /\
    ((forall r, In r (orders (committed w)) -> id r <> i) ->
     committed w' = committed w).
Proof.
  intros amount freight selling Hw Hid Hacc.
  change (Ledger.handle E (financials_request path_id fields))
    with (Ledger.put_financials E
            (with_params [("id", JStr path_id)] (financials_request path_id fields))).
  unfold Ledger.put_financials, with_params, financials_request.
  cbn [body params lookup String.eqb Ascii.eqb Bool.eqb].
  fold amount freight selling.
  cbv beta iota delta [bind try_catch ret].
  rewrite exec_autocommit by (assumption || reflexivity).
  rewrite Hacc. cbn [run]. unfold with_int.
  rewrite (int_param_text _ _ Hid).
  eexists. split; [reflexivity|]. cbn [committed update_financials trackings orders].
  split; [reflexivity|]. split.
  { apply Forall2_map_self. intros r _.
    destruct (id r =? i) eqn:Heq.
    - apply Z.eqb_eq in Heq. split; [repeat split|]. split; [congruence|].
      intros _. cbn. subst freight selling. now rewrite !param_js_or_zero.
    - apply Z.eqb_neq in Heq. split; [repeat split|]. split; [reflexivity|].
      congruence. }
  split; [intros H; subst freight; now rewrite H|].
  split; [intros H; subst selling; now rewrite H|].
  intros Habs.
  change {| orders := map _ _; trackings := _ |}
    with (update_financials amount freight selling i (committed w)).
  now apply update_financials_absent.
Qed.

Lemma financials_update_frame_witness :
  exists w',
    Ledger.handle offline
      (financials_request "1" [("original_amount", JNum (of_Z 120))])
      two_orders_world
      = (Normal (json 200 (Ledger.success "Pedido actualizado")), w') /\
    trackings (committed w') = trackings (committed two_orders_world).
Proof.
  destruct (financials_update_frame offline two_orders_world "1" 1
              [("original_amount", JNum (of_Z 120))] eq_refl eq_refl eq_refl)
    as (w' & Hrun & Htr & _).
  exists w'. split; [exact Hrun|exact Htr].
Defined.

(** C9 (delete).  Where the store takes both statements, the handler
    first deletes the trackings of the order (the order row still being
    there, and no tracking referencing it any more), then the order row,
    and answers success.  Afterwards exactly the trackings and orders of
    other ids remain, a store without orphans stays without orphans, and
    deleting an id that no row bears changes nothing and succeeds. *)
Theorem delete_order_cascade (E : Env) (w : World) (path_id : string) (i : Z) :
  working w = None ->
  int_of_text path_id = Some i ->
  rejects E (committed w) (DeleteTrackings (JStr path_id)) = None ->
  rejects E (delete_trackings i (committed w)) (DeleteOrder (JStr path_id)) = None ->
  exists w1 w',
    (* first the trackings, the order row still there *)
    exec E (DeleteTrackings (JStr path_id)) w = (Normal [], w1) /\
    orders (committed w1) = orders (committed w) /\
    (forall r, In r (trackings (committed w1)) -> order_id r <> i) /\
    (* then the order *)
    exec E (DeleteOrder (JStr path_id)) w1 = (Normal [], w') /\
    Ledger.handle E (delete_request path_id) w
      = (Normal (json 200 (Ledger.success "Pedido eliminado")), w') /\
    log w' = (log w ++ [EvSql (DeleteTrackings (JStr path_id));
                        EvSql (DeleteOrder (JStr path_id))])%list /\
    (forall r, In r (trackings (committed w')) <->
               In r (trackings (committed w)) /\ order_id r <> i) /\
    (forall o, In o (orders (committed w')) <->
               In o (orders (committed w)) /\ id o <> i) /\
    (no_orphans (committed w) -> no_orphans (committed w')) /\
    ((forall o, In o (orders (committed w)) -> id o <> i) ->
     (forall r, In r (trackings (committed w)) -> order_id r <> i) ->
     committed w' = committed w).
Proof.
  intros Hw Hid Hacc1 Hacc2.
  assert (Hrun1 : exec E (DeleteTrackings (JStr path_id)) w =
                  (Normal [],
                   {| committed := delete_trackings i (committed w);
                      working := None; order_seq := order_seq w;
                      log := (log w ++ [EvSql (DeleteTrackings (JStr path_id))])%list |})).
  { rewrite exec_autocommit by (assumption || reflexivity).
    rewrite Hacc1. cbn [run]. unfold with_int.
    now rewrite (int_param_text _ _ Hid). }
  set (w1 := {| committed := delete_trackings i (committed w);
                working := None; order_seq := order_seq w;
                log := (log w ++ [EvSql (DeleteTrackings (JStr path_id))])%list |}) in *.
  assert (Hrun2 : exec E (DeleteOrder (JStr path_id)) w1 =
                  (Normal [],
                   {| committed := delete_order i (delete_trackings i (committed w));
                      working := None; order_seq := order_seq w;
                      log := ((log w ++ [EvSql (DeleteTrackings (JStr path_id))])
                                ++ [EvSql (DeleteOrder (JStr path_id))])%list |})).
  { rewrite exec_autocommit by reflexivity.
    cbn [w1 committed]. rewrite Hacc2. cbn [run]. unfold with_int.
    now rewrite (int_param_text _ _ Hid). }
  assert (Htr : forall r, In r (trackings (delete_trackings i (committed w))) <->
                          In r (trackings (committed w)) /\ order_id r <> i).
  { intros r. cbn. rewrite filter_In. rewrite negb_true_iff, Z.eqb_neq. tauto. }
  assert (Hor : forall o, In o (orders (delete_order i (delete_trackings i (committed w)))) <->
                          In o (orders (committed w)) /\ id o <> i).
  { intros o. cbn. rewrite filter_In. rewrite negb_true_iff, Z.eqb_neq. tauto. }
  eexists w1, _.
  split; [exact Hrun1|]. split; [reflexivity|].
  split; [intros r Hr; now apply Htr in Hr|].
  split; [exact Hrun2|].
  split.
  { change (Ledger.handle E (delete_request path_id))
      with (Ledger.delete_orders E
              (with_params [("id", JStr path_id)] (delete_request path_id))).
    unfold Ledger.delete_orders, with_params, delete_request.
    cbn [params lookup String.eqb Ascii.eqb Bool.eqb].
    cbv beta iota delta [bind try_catch ret].
    rewrite Hrun1, Hrun2. reflexivity. }
  split; [cbn; now rewrite <- app_assoc|].
  split; [exact Htr|]. split; [exact Hor|]. split.
  - intros Hno r Hr. apply Htr in Hr as [Hr Hne].
    destruct (Hno r Hr) as (o & Ho & Heq).
    exists o. split; [|exact Heq]. apply Hor. split; [exact Ho|congruence].
  - intros Hnoo Hnot. cbn [committed].
    unfold delete_order, delete_trackings. cbn [orders trackings].
    destruct (committed w) as [os ts]. cbn in *. f_equal.
    + apply filter_all. intros o Ho. apply negb_true_iff, Z.eqb_neq. now apply Hnoo.
    + apply filter_all. intros r Hr. apply negb_true_iff, Z.eqb_neq. now apply Hnot.
Qed.

Lemma delete_order_cascade_witness :
  exists w',
    Ledger.handle offline (delete_request "1") two_orders_world
      = (Normal (json 200 (Ledger.success "Pedido eliminado")), w') /\
    Ledger.handle offline (delete_request "1") w'
      = (Normal (json 200 (Ledger.success "Pedido eliminado")),
         {| committed := committed w'; working := None; order_seq := 3;
            log := (log w' ++ [EvSql (DeleteTrackings (JStr "1"));
                               EvSql (DeleteOrder (JStr "1"))])%list |}).
Proof.
  destruct (delete_order_cascade offline two_orders_world "1" 1
              eq_refl eq_refl eq_refl eq_refl)
    as (w1 & w' & H1 & _ & _ & H2 & Hrun & _).
  exists w'. split; [exact Hrun|].
  cbn in H1. injection H1 as <-. cbn in H2. injection H2 as <-.
  reflexivity.
Defined.

End Properties.

(* ===================================================================== *)
(** * Further properties of the routes *)
(* ===================================================================== *)

Module Extras.
Import Js Db Runtime Express Props MoreProps Facts.

(** ** The rate resolver *)



(** X2.  When the [conversion_rate] of the answer is a non-empty text,
    [getDollarRate] does not fall back: [+] concatenates, and the result is
    that text followed by "0.18". *)
Theorem text_rate_is_concatenated (E : Env) (w : World)
        (fields : list (string * JsVal)) (s : string) :
  oracle E = OracleReply (JObj fields) ->
  lookup "conversion_rate" fields = JStr s ->
  s <> "" ->
  Ledger.getDollarRate E w
    = (Normal (JStr (s ++ "0.18")), logged EvOracleGet w).
Proof.
  intros Ho Hrate Hs.
  unfold Ledger.getDollarRate, axios_get_data, try_catch, bind, emit, ret, lift.
  rewrite Ho. cbn [truthy get_prop]. rewrite Hrate.
  assert (Ht : truthy (JStr s) = true).
  { cbn. destruct s; [contradiction|reflexivity]. }
  rewrite Ht. reflexivity.
Qed.

Lemma text_rate_is_concatenated_witness :
  Ledger.getDollarRate (live (JStr "26.38")) empty_world
  = (Normal (JStr "26.380.18"), logged EvOracleGet empty_world).
Proof.
  apply (text_rate_is_concatenated (live (JStr "26.38")) empty_world _ "26.38"
           eq_refl eq_refl).
  discriminate.
Defined.

(** X3.  A [conversion_rate] that is present but falsy (0, the empty text,
    null, false) is treated as a failure of the service: the fallback rate
    26.60 is returned and the console line written. *)
Theorem falsy_rate_falls_back (E : Env) (w : World)
        (fields : list (string * JsVal)) :
  oracle E = OracleReply (JObj fields) ->
  truthy (lookup "conversion_rate" fields) = false ->
  Ledger.getDollarRate E w
    = (Normal (JNum Ledger.fallback_rate),
       logged (EvConsoleError "Usando tasa respaldo 26.60")
              (logged EvOracleGet w)).
Proof.
  intros Ho Hrate.
  unfold Ledger.getDollarRate, axios_get_data, try_catch, bind, emit, ret, lift,
    throw, console_error.
  rewrite Ho. cbn [truthy get_prop]. rewrite Hrate. reflexivity.
Qed.

Lemma falsy_rate_falls_back_witness :
  Ledger.getDollarRate (live (JNum (of_Z 0))) empty_world
  = (Normal (JNum (mk 266 (-1))),
     logged (EvConsoleError "Usando tasa respaldo 26.60")
            (logged EvOracleGet empty_world)).
Proof.
  apply (falsy_rate_falls_back (live (JNum (of_Z 0))) empty_world _ eq_refl eq_refl).
Defined.



(** ** The listing *)

(** X5.  Where the store takes the query, the listing answers 200 with one
    row per order, each order once, ordered by id from the newest down, and
    changes no table; the [trackings] of every row is a non-empty array. *)
Theorem listing_all_newest_first (E : Env) (w : World) :
  working w = None ->
  rejects E (committed w) SelectOrders = None ->
  exists sorted w',
    Ledger.handle E list_request w
      = (Normal (json 200 (JArr (map (listed_row (committed w)) sorted))), w') /\
    Permutation (orders (committed w)) sorted /\
    newest_first sorted /\
    committed w' = committed w /\
    (forall o, exists first rest,
        listed_trackings (listed_row (committed w) o) = JArr (first :: rest)).
Proof.
  intros Hw Hacc. rewrite (get_orders_run E w Hw Hacc).
  exists (order_by_id_desc (orders (committed w))). eexists.
  split; [reflexivity|].
  split; [apply order_by_id_desc_perm|].
  split; [apply order_by_id_desc_sorted|].
  split; [reflexivity|].
  intros o. unfold listed_row, listed_trackings, field.
  cbn [get_prop]. unfold order_columns, json_agg, left_join.
  cbn [lookup app String.eqb Ascii.eqb Bool.eqb].
  destruct (filter _ _); cbn; eauto.
Qed.

Lemma listing_all_newest_first_witness :
  exists sorted w',
    Ledger.handle offline list_request two_orders_world
      = (Normal (json 200 (JArr (map (listed_row (committed two_orders_world))
                                     sorted))), w') /\
    Permutation (orders (committed two_orders_world)) sorted /\
    newest_first sorted.
Proof.
  destruct (listing_all_newest_first offline two_orders_world eq_refl eq_refl)
    as (sorted & w' & Hrun & Hperm & Hsorted & _).
  exists sorted, w'. auto.
Defined.





(** X7.  The listing sends the one SELECT and nothing else, whatever the
    store answers: the tables and the sequence are unchanged, and a refusal
    of the store is answered 500 with its message. *)
Theorem listing_is_read_only (E : Env) (w : World) :
  working w = None ->
  exists resp w',
    Ledger.handle E list_request w = (Normal resp, w') /\
    committed w' = committed w /\ working w' = None /\
    order_seq w' = order_seq w /\
    log w' = (log w ++ [EvSql SelectOrders])%list /\
    match rejects E (committed w) SelectOrders with
    | Some msg => resp = json 500 (Ledger.error_body msg)
    | None => resp = json 200 (JArr (select_orders (committed w)))
    end.
Proof.
  intros Hw. rewrite handle_list. unfold Ledger.get_orders.
  cbv beta iota delta [bind try_catch ret].
  rewrite exec_autocommit by (assumption || reflexivity).
  destruct (rejects E (committed w) SelectOrders) as [msg|]; cbn [run];
    eexists _, _; (split; [reflexivity|]); cbn; auto.
Qed.

Lemma listing_is_read_only_witness :
  exists resp w',
    Ledger.handle offline list_request two_orders_world = (Normal resp, w') /\
    committed w' = committed two_orders_world.
Proof.
  destruct (listing_is_read_only offline two_orders_world eq_refl)
    as (resp & w' & Hrun & Hc & _).
  exists resp, w'. auto.
Defined.

(** ** Runs of the single-statement routes *)

Lemma post_tracking_run (E : Env) (w : World) (path_id : string)
      (fields : list (string * JsVal)) :
  working w = None ->
  let stmt := InsertTracking (JStr path_id) (lookup "tracking_number" fields)
                             (lookup "carrier" fields) in
  Ledger.handle E (tracking_request path_id fields) w =
    match rejects E (committed w) stmt with
    | Some msg => (Normal (json 500 (Ledger.error_body msg)), logged (EvSql stmt) w)
    | None =>
        match int_of_text path_id with
        | Some i =>
            (Normal (json 200 (Ledger.success "Nuevo tracking agregado")),
             {| committed := add_tracking
                               (new_tracking i (lookup "tracking_number" fields)
                                             (lookup "carrier" fields))
                               (committed w);
                working := None; order_seq := order_seq w;
                log := (log w ++ [EvSql stmt])%list |})
        | None =>
            (Normal (json 500 (Ledger.error_body
                      ("invalid input syntax for type integer: " ++ path_id))),
             logged (EvSql stmt) w)
        end
    end.
Proof.
  intros Hw stmt.
  change (Ledger.handle E (tracking_request path_id fields))
    with (Ledger.post_tracking E
            (with_params [("id", JStr path_id)] (tracking_request path_id fields))).
  unfold Ledger.post_tracking, with_params, tracking_request.
  cbn [body params lookup String.eqb Ascii.eqb Bool.eqb].
  fold stmt.
  cbv beta iota delta [bind try_catch ret].
  rewrite exec_autocommit by (assumption || reflexivity).
  destruct (rejects E (committed w) stmt); [reflexivity|].
  subst stmt. cbn [run]. unfold with_int, int_param.
  destruct (int_of_text path_id); reflexivity.
Qed.

Lemma put_financials_run (E : Env) (w : World) (path_id : string)
      (fields : list (string * JsVal)) :
  working w = None ->
  let amount := lookup "original_amount" fields in
  let freight := js_or (lookup "freight_cost_hnl" fields) (JNum (of_Z 0)) in
  let selling := js_or (lookup "selling_price_hnl" fields) (JNum (of_Z 0)) in
  let stmt := UpdateFinancials amount freight selling (JStr path_id) in
  Ledger.handle E (financials_request path_id fields) w =
    match rejects E (committed w) stmt with
    | Some msg => (Normal (json 500 (Ledger.error_body msg)), logged (EvSql stmt) w)
    | None =>
        match int_of_text path_id with
        | Some i =>
            (Normal (json 200 (Ledger.success "Pedido actualizado")),
             {| committed := update_financials amount freight selling i (committed w);
                working := None; order_seq := order_seq w;
                log := (log w ++ [EvSql stmt])%list |})
        | None =>
            (Normal (json 500 (Ledger.error_body
                      ("invalid input syntax for type integer: " ++ path_id))),
             logged (EvSql stmt) w)
        end
    end.
Proof.
  intros Hw amount freight selling stmt.
  change (Ledger.handle E (financials_request path_id fields))
    with (Ledger.put_financials E
            (with_params [("id", JStr path_id)] (financials_request path_id fields))).
  unfold Ledger.put_financials, with_params, financials_request.
  cbn [body params lookup String.eqb Ascii.eqb Bool.eqb].
  fold amount freight selling. fold stmt.
  cbv beta iota delta [bind try_catch ret].
  rewrite exec_autocommit by (assumption || reflexivity).
  destruct (rejects E (committed w) stmt); [reflexivity|].
  subst stmt. cbn [run]. unfold with_int, int_param.
  destruct (int_of_text path_id); reflexivity.
Qed.

Lemma delete_orders_run (E : Env) (w : World) (path_id : string) :
  working w = None ->
  let s1 := DeleteTrackings (JStr path_id) in
  let s2 := DeleteOrder (JStr path_id) in
  Ledger.handle E (delete_request path_id) w =
    match rejects E (committed w) s1 with
    | Some msg => (Normal (json 500 (Ledger.error_body msg)), logged (EvSql s1) w)
    | None =>
        match int_of_text path_id with
        | None =>
            (Normal (json 500 (Ledger.error_body
                      ("invalid input syntax for type integer: " ++ path_id))),
             logged (EvSql s1) w)
        | Some i =>
            let t1 := delete_trackings i (committed w) in
            match rejects E t1 s2 with
            | Some msg =>
                (Normal (json 500 (Ledger.error_body msg)),
                 {| committed := t1; working := None; order_seq := order_seq w;
                    log := ((log w ++ [EvSql s1]) ++ [EvSql s2])%list |})
            | None =>
                (Normal (json 200 (Ledger.success "Pedido eliminado")),
                 {| committed := delete_order i t1; working := None;
                    order_seq := order_seq w;
                    log := ((log w ++ [EvSql s1]) ++ [EvSql s2])%list |})
            end
        end
    end.
Proof.
  intros Hw s1 s2.
  change (Ledger.handle E (delete_request path_id))
    with (Ledger.delete_orders E
            (with_params [("id", JStr path_id)] (delete_request path_id))).
  unfold Ledger.delete_orders, with_params, delete_request.
  cbn [params lookup String.eqb Ascii.eqb Bool.eqb].
  fold s1 s2.
  cbv beta iota delta [bind try_catch ret].
  rewrite exec_autocommit by (assumption || reflexivity).
  destruct (rejects E (committed w) s1); [reflexivity|].
  subst s1. cbn [run]. unfold with_int, int_param.
  destruct (int_of_text path_id) as [i|] eqn:Hid; [|reflexivity].
  rewrite exec_autocommit by reflexivity.
  cbn [committed order_seq log].
  destruct (rejects E (delete_trackings i (committed w)) s2); [reflexivity|].
  subst s2. cbn [run]. unfold with_int, int_param. rewrite Hid. reflexivity.
Qed.


(** ** Adding a tracking *)

(** X8.  Adding a tracking appends one row for the id of the path and
    touches no order; the handler does not look whether an order bears
    that id, so with an accepting store and an unknown id the new row is an
    orphan. *)
Theorem tracking_added_without_check (E : Env) (w : World) (path_id : string)
        (i : Z) (fields : list (string * JsVal)) :
  working w = None ->
  int_of_text path_id = Some i ->
  rejects E (committed w)
          (InsertTracking (JStr path_id) (lookup "tracking_number" fields)
                          (lookup "carrier" fields)) = None ->
  exists w',
    Ledger.handle E (tracking_request path_id fields) w
      = (Normal (json 200 (Ledger.success "Nuevo tracking agregado")), w') /\
    orders (committed w') = orders (committed w) /\
    trackings (committed w')
      = (trackings (committed w)
         ++ [new_tracking i (lookup "tracking_number" fields)
                          (lookup "carrier" fields)])%list /\
    ((forall o, In o (orders (committed w)) -> id o <> i) ->
     ~ no_orphans (committed w')).
Proof.
  intros Hw Hid Hacc.
  rewrite (post_tracking_run E w path_id fields Hw). cbv zeta.
  rewrite Hacc, Hid. eexists. split; [reflexivity|].
  cbn [committed add_tracking orders trackings].
  split; [reflexivity|]. split; [reflexivity|].
  intros Habsent Hno.
  destruct (Hno (new_tracking i (lookup "tracking_number" fields)
                              (lookup "carrier" fields)))
    as (o & Ho & Hoid).
  - cbn. apply in_or_app. right. now left.
  - cbn in Ho, Hoid. now apply (Habsent o Ho).
Qed.

Lemma tracking_added_without_check_witness :
  exists w',
    Ledger.handle offline
      (tracking_request "77" [("tracking_number", JStr "LP001")])
      two_orders_world
      = (Normal (json 200 (Ledger.success "Nuevo tracking agregado")), w') /\
    ~ no_orphans (committed w').
Proof.
  destruct (tracking_added_without_check offline two_orders_world "77" 77
              [("tracking_number", JStr "LP001")] eq_refl eq_refl eq_refl)
    as (w' & Hrun & _ & _ & Horphan).
  exists w'. split; [exact Hrun|]. apply Horphan.
  intros o [<- | [<- | []]]; discriminate.
Defined.







(** ** Financials *)

Lemma update_financials_twice (a f s : JsVal) (i : Z) (t : Tables) :
  update_financials a f s i (update_financials a f s i t)
  = update_financials a f s i t.
Proof.
  unfold update_financials. cbn [orders trackings]. f_equal.
  rewrite map_map. apply map_ext. intros r.
  destruct (id r =? i) eqn:Heq.
  - cbn [set_financials id]. rewrite Heq. reflexivity.
  - now rewrite Heq.
Qed.

(** X11.  Sending the same financials update twice leaves the tables as after
    the first one. *)
Theorem financials_update_idempotent (E : Env) (w : World) (path_id : string)
        (i : Z) (fields : list (string * JsVal)) :
  let stmt := UpdateFinancials (lookup "original_amount" fields)
                (js_or (lookup "freight_cost_hnl" fields) (JNum (of_Z 0)))
                (js_or (lookup "selling_price_hnl" fields) (JNum (of_Z 0)))
                (JStr path_id) in
  working w = None ->
  int_of_text path_id = Some i ->
  (forall t, rejects E t stmt = None) ->
  exists w1 w2,
    Ledger.handle E (financials_request path_id fields) w
      = (Normal (json 200 (Ledger.success "Pedido actualizado")), w1) /\
    Ledger.handle E (financials_request path_id fields) w1
      = (Normal (json 200 (Ledger.success "Pedido actualizado")), w2) /\
    committed w2 = committed w1.
Proof.
  intros stmt Hw Hid Hacc.
  rewrite (put_financials_run E w path_id fields Hw). cbv zeta.
  fold stmt. rewrite Hacc, Hid.
  eexists _, _. split; [reflexivity|].
  rewrite put_financials_run by reflexivity. cbv zeta.
  fold stmt. rewrite Hacc, Hid. cbn [committed order_seq log].
  split; [reflexivity|]. apply update_financials_twice.
Qed.

Lemma financials_update_idempotent_witness :
  exists w1 w2,
    Ledger.handle offline
      (financials_request "1" [("original_amount", JNum (of_Z 120))])
      two_orders_world
      = (Normal (json 200 (Ledger.success "Pedido actualizado")), w1) /\
    Ledger.handle offline
      (financials_request "1" [("original_amount", JNum (of_Z 120))]) w1
      = (Normal (json 200 (Ledger.success "Pedido actualizado")), w2) /\
    committed w2 = committed w1.
Proof.
  apply (financials_update_idempotent offline two_orders_world "1" 1
           [("original_amount", JNum (of_Z 120))] eq_refl eq_refl).
  intros t. reflexivity.
Defined.

(** X12.  In a financials update the amount has no default: a body without
    [original_amount] writes NULL over the amount of the order.  A freight
    cost or selling price that is falsy (absent, null, 0, the empty text,
    false) is written as 0, a truthy one as it is. *)
Theorem financials_falsy_values (E : Env) (w : World) (path_id : string)
        (i : Z) (fields : list (string * JsVal)) (r : OrderRow) :
  working w = None ->
  int_of_text path_id = Some i ->
  rejects E (committed w)
          (UpdateFinancials (lookup "original_amount" fields)
             (js_or (lookup "freight_cost_hnl" fields) (JNum (of_Z 0)))
             (js_or (lookup "selling_price_hnl" fields) (JNum (of_Z 0)))
             (JStr path_id)) = None ->
  In r (orders (committed w)) -> id r = i ->
  exists w' r',
    Ledger.handle E (financials_request path_id fields) w
      = (Normal (json 200 (Ledger.success "Pedido actualizado")), w') /\
    In r' (orders (committed w')) /\ id r' = i /\
    (lookup "original_amount" fields = JUndefined -> original_amount r' = JNull) /\
    (truthy (lookup "freight_cost_hnl" fields) = false ->
     freight_cost_hnl r' = JNum (of_Z 0)) /\
    (truthy (lookup "selling_price_hnl" fields) = false ->
     selling_price_hnl r' = JNum (of_Z 0)) /\
    (truthy (lookup "freight_cost_hnl" fields) = true ->
     freight_cost_hnl r' = lookup "freight_cost_hnl" fields) /\
    (truthy (lookup "selling_price_hnl" fields) = true ->
     selling_price_hnl r' = lookup "selling_price_hnl" fields).
Proof.
  intros Hw Hid Hacc Hr Hri.
  rewrite (put_financials_run E w path_id fields Hw). cbv zeta.
  rewrite Hacc, Hid.
  eexists _, (set_financials _ _ _ r). split; [reflexivity|].
  cbn [committed update_financials orders].
  split.
  { apply in_map_iff. exists r. split; [|exact Hr].
    apply Z.eqb_eq in Hri. now rewrite Hri. }
  split; [exact Hri|]. cbn [set_financials original_amount freight_cost_hnl
                                    selling_price_hnl].
  rewrite !param_js_or_zero. unfold js_or.
  split; [now intros ->|].
  split; [now intros ->|]. split; [now intros ->|].
  split; now intros ->.
Qed.

Lemma financials_falsy_values_witness :
  exists w' r',
    Ledger.handle offline
      (financials_request "1" [("freight_cost_hnl", JNull);
                               ("selling_price_hnl", JStr "")])
      two_orders_world
      = (Normal (json 200 (Ledger.success "Pedido actualizado")), w') /\
    In r' (orders (committed w')) /\ id r' = 1 /\
    original_amount r' = JNull /\
    freight_cost_hnl r' = JNum (of_Z 0) /\
    selling_price_hnl r' = JNum (of_Z 0).
Proof.
  destruct (financials_falsy_values offline two_orders_world "1" 1
              [("freight_cost_hnl", JNull); ("selling_price_hnl", JStr "")]
              (nth 0 (orders (committed two_orders_world)) lonely_order)
              eq_refl eq_refl eq_refl (or_introl eq_refl) eq_refl)
    as (w' & r' & Hrun & Hin & Hid & Ha & Hf & Hs & _).
  exists w', r'. split; [exact Hrun|]. split; [exact Hin|]. split; [exact Hid|].
  split; [now apply Ha|]. split; [now apply Hf|now apply Hs].
Defined.

(** ** Deleting *)

(** X13.  The two statements of the delete route are not one transaction:
    when the store takes the first and refuses the second, the answer is
    500 with the message of the store, the trackings of the order are gone
    and the order row is still there. *)
Theorem delete_is_not_atomic (E : Env) (w : World) (path_id : string) (i : Z)
        (msg : string) :
  working w = None ->
  int_of_text path_id = Some i ->
  rejects E (committed w) (DeleteTrackings (JStr path_id)) = None ->
  rejects E (delete_trackings i (committed w)) (DeleteOrder (JStr path_id))
    = Some msg ->
  exists w',
    Ledger.handle E (delete_request path_id) w
      = (Normal (json 500 (Ledger.error_body msg)), w') /\
    orders (committed w') = orders (committed w) /\
    (forall r, In r (trackings (committed w')) <->
               In r (trackings (committed w)) /\ order_id r <> i).
Proof.
  intros Hw Hid H1 H2.
  rewrite (delete_orders_run E w path_id Hw). cbv zeta.
  rewrite H1, Hid, H2. eexists. split; [reflexivity|].
  cbn [committed delete_trackings orders trackings].
  split; [reflexivity|].
  intros r. rewrite filter_In, negb_true_iff, Z.eqb_neq. tauto.
Qed.

Lemma delete_is_not_atomic_witness :
  exists w',
    Ledger.handle keeps_orders (delete_request "1") two_orders_world
      = (Normal (json 500 (Ledger.error_body "permission denied for table orders")),
         w') /\
    orders (committed w') = orders (committed two_orders_world) /\
    trackings (committed w') = [].
Proof.
  destruct (delete_is_not_atomic keeps_orders two_orders_world "1" 1
              "permission denied for table orders" eq_refl eq_refl eq_refl eq_refl)
    as (w' & Hrun & Hord & _).
  exists w'. split; [exact Hrun|]. split; [exact Hord|].
  cbn in Hrun. injection Hrun as <-. reflexivity.
Defined.


Lemma of_Z_inj (a b : Z) : of_Z a = of_Z b -> a = b.
Proof.
  intros H. pose proof (int_param_of_Z a) as Ha. rewrite H in Ha.
  rewrite int_param_of_Z in Ha. now injection Ha.
Qed.

(** X14.  After a successful delete the listing shows exactly the other
    orders: no row bears the deleted id. *)
Theorem deleted_order_is_not_listed (E : Env) (w : World) (path_id : string)
        (i : Z) :
  working w = None ->
  int_of_text path_id = Some i ->
  rejects E (committed w) (DeleteTrackings (JStr path_id)) = None ->
  rejects E (delete_trackings i (committed w)) (DeleteOrder (JStr path_id)) = None ->
  rejects E (delete_order i (delete_trackings i (committed w))) SelectOrders = None ->
  exists w1 sorted w2,
    Ledger.handle E (delete_request path_id) w
      = (Normal (json 200 (Ledger.success "Pedido eliminado")), w1) /\
    Ledger.handle E list_request w1
      = (Normal (json 200 (JArr (map (listed_row (committed w1)) sorted))), w2) /\
    (forall o, In o sorted <-> In o (orders (committed w)) /\ id o <> i) /\
    (forall o, In o sorted ->
       field (listed_row (committed w1) o) "id" <> JNum (of_Z i)).
Proof.
  intros Hw Hid H1 H2 H3.
  rewrite (delete_orders_run E w path_id Hw). cbv zeta.
  rewrite H1, Hid, H2.
  eexists _, (order_by_id_desc _), _. split; [reflexivity|].
  split; [apply get_orders_run; [reflexivity|exact H3]|].
  cbn [committed].
  assert (Hin : forall o,
             In o (order_by_id_desc
                     (orders (delete_order i (delete_trackings i (committed w)))))
             <-> In o (orders (committed w)) /\ id o <> i).
  { intros o. split.
    - intros Ho.
      apply (Permutation_in _ (Permutation_sym (order_by_id_desc_perm _))) in Ho.
      cbn in Ho. apply filter_In in Ho as [Ho Hne].
      apply negb_true_iff, Z.eqb_neq in Hne. now split.
    - intros [Ho Hne].
      apply (Permutation_in _ (order_by_id_desc_perm _)).
      cbn. apply filter_In. split; [exact Ho|].
      now apply negb_true_iff, Z.eqb_neq. }
  split; [exact Hin|].
  intros o Ho Heq. apply Hin in Ho as [_ Hne].
  cbn in Heq. injection Heq as Heq. now apply of_Z_inj in Heq.
Qed.

Lemma deleted_order_is_not_listed_witness :
  exists w1 sorted w2,
    Ledger.handle offline (delete_request "1") two_orders_world
      = (Normal (json 200 (Ledger.success "Pedido eliminado")), w1) /\
    Ledger.handle offline list_request w1
      = (Normal (json 200 (JArr (map (listed_row (committed w1)) sorted))), w2) /\
    (forall o, In o sorted -> id o <> 1).
Proof.
  destruct (deleted_order_is_not_listed offline two_orders_world "1" 1
              eq_refl eq_refl eq_refl eq_refl eq_refl)
    as (w1 & sorted & w2 & Hd & Hl & Hin & _).
  exists w1, sorted, w2. split; [exact Hd|]. split; [exact Hl|].
  intros o Ho. now apply Hin in Ho.
Defined.

(** X15.  Creating an order (with its trackings) and then deleting the id it
    was given brings the tables back to what they were, provided no row
    bore that id before. *)
Theorem create_then_delete_restores (E : Env) (w : World) (path_id : string)
        (fields : list (string * JsVal)) (items : list JsVal) :
  working w = None ->
  tracking_items (lookup "trackings" fields) = Some items ->
  create_accepted E (committed w) (order_seq w) fields items = true ->
  (forall o, In o (orders (committed w)) -> id o <> order_seq w) ->
  (forall r, In r (trackings (committed w)) -> order_id r <> order_seq w) ->
  int_of_text path_id = Some (order_seq w) ->
  (forall t, rejects E t (DeleteTrackings (JStr path_id)) = None) ->
  (forall t, rejects E t (DeleteOrder (JStr path_id)) = None) ->
  exists w1 w2,
    Ledger.handle E (create_request fields) w
      = (Normal (created (order_seq w)), w1) /\
    Ledger.handle E (delete_request path_id) w1
      = (Normal (json 200 (Ledger.success "Pedido eliminado")), w2) /\
    committed w2 = committed w.
Proof.
  intros Hw Hitems Hacc Hfresh_o Hfresh_t Hid Hd1 Hd2.
  rewrite handle_create.
  destruct (post_orders_outcome E fields w Hw)
    as (resp & w1 & Hrun & Hw1 & _ & Hcase).
  destruct Hcase as [(-> & _ & Hok) | (_ & _ & Hno)];
    [|rewrite (Hno items Hitems) in Hacc; discriminate].
  destruct (Hok items Hitems) as [_ Hc1].
  exists w1. eexists. split; [exact Hrun|].
  rewrite (delete_orders_run E w1 path_id Hw1). cbv zeta.
  rewrite Hd1, Hid, Hd2. split; [reflexivity|].
  cbn [committed]. rewrite Hc1.
  unfold delete_order, delete_trackings, add_trackings, add_order.
  cbn [orders trackings].
  destruct (committed w) as [os ts]. cbn [orders trackings] in *. f_equal.
  - rewrite filter_app, filter_all.
    + cbn. rewrite Z.eqb_refl. cbn. apply app_nil_r.
    + intros o Ho. apply negb_true_iff, Z.eqb_neq. now apply Hfresh_o.
  - rewrite filter_app, filter_all, filter_none.
    + apply app_nil_r.
    + intros r Hr. apply in_map_iff in Hr as (x & <- & _).
      cbn. now rewrite Z.eqb_refl.
    + intros r Hr. apply negb_true_iff, Z.eqb_neq. now apply Hfresh_t.
Qed.

Lemma create_then_delete_restores_witness :
  exists w1 w2,
    Ledger.handle offline (create_request example_with_trackings) two_orders_world
      = (Normal (created 3), w1) /\
    Ledger.handle offline (delete_request "3") w1
      = (Normal (json 200 (Ledger.success "Pedido eliminado")), w2) /\
    committed w2 = committed two_orders_world.
Proof.
  apply (create_then_delete_restores offline two_orders_world "3"
           example_with_trackings two_trackings eq_refl eq_refl eq_refl).
  - intros o [<- | [<- | []]]; discriminate.
  - intros r [<- | []]; discriminate.
  - reflexivity.
  - intros t. reflexivity.
  - intros t. reflexivity.
Defined.

(** ** The simplified variant *)

(** X16.  The financials, tracking and delete routes of the simplified
    variant have the effect of those of [index.js] on every request: the
    same world afterwards and the same status (only the message of the
    success answer differs); the listing is the same function. *)
Theorem variant_routes_have_same_effect (E : Env) (w : World)
        (path_id : string) (fields : list (string * JsVal)) :
  same_effect (Lempiras.handle E (financials_request path_id fields) w)
              (Ledger.handle E (financials_request path_id fields) w) /\
  same_effect (Lempiras.handle E (tracking_request path_id fields) w)
              (Ledger.handle E (tracking_request path_id fields) w) /\
  same_effect (Lempiras.handle E (delete_request path_id) w)
              (Ledger.handle E (delete_request path_id) w) /\
  Lempiras.handle E list_request w = Ledger.handle E list_request w.
Proof.
  split; [|split; [|split]].
  - change (Lempiras.handle E (financials_request path_id fields))
      with (Lempiras.put_financials E
              (with_params [("id", JStr path_id)] (financials_request path_id fields))).
    change (Ledger.handle E (financials_request path_id fields))
      with (Ledger.put_financials E
              (with_params [("id", JStr path_id)] (financials_request path_id fields))).
    unfold Lempiras.put_financials, Ledger.put_financials, same_effect.
    cbv beta iota delta [bind try_catch ret].
    destruct (exec E _ w) as [[rows|msg] w1]; split; reflexivity.
  - change (Lempiras.handle E (tracking_request path_id fields))
      with (Lempiras.post_tracking E
              (with_params [("id", JStr path_id)] (tracking_request path_id fields))).
    change (Ledger.handle E (tracking_request path_id fields))
      with (Ledger.post_tracking E
              (with_params [("id", JStr path_id)] (tracking_request path_id fields))).
    unfold Lempiras.post_tracking, Ledger.post_tracking, same_effect.
    cbv beta iota delta [bind try_catch ret].
    destruct (exec E _ w) as [[rows|msg] w1]; split; reflexivity.
  - change (Lempiras.handle E (delete_request path_id))
      with (Lempiras.delete_orders E
              (with_params [("id", JStr path_id)] (delete_request path_id))).
    change (Ledger.handle E (delete_request path_id))
      with (Ledger.delete_orders E
              (with_params [("id", JStr path_id)] (delete_request path_id))).
    unfold Lempiras.delete_orders, Ledger.delete_orders, same_effect.
    cbv beta iota delta [bind try_catch ret].
    destruct (exec E _ w) as [[rows|msg] w1]; [|split; reflexivity].
    destruct (exec E _ w1) as [[rows'|msg] w2]; split; reflexivity.
  - reflexivity.
Qed.


(** ** The first registration and values of [trackings] that are no array *)

Lemma insert_trackings_walk (E : Env) (i : Z) (v : JsVal) (w : World) (t : Tables) :
  working w = Some t ->
  exists r w' t', Ledger.insert_trackings E (JNum (of_Z i)) v w = (r, w') /\
    committed w' = committed w /\ order_seq w' = order_seq w /\
    working w' = Some t' /\
    match walked v with
    | Some items =>
        if loop_accepts E i t items
        then r = Normal tt /\ t' = add_trackings i items t
        else (exists msg, r = Throw msg) /\ orders t' = orders t
    | None => r = Throw "trackings is not iterable" /\ t' = t
    end.
Proof.
  intros Hw. unfold Ledger.insert_trackings.
  assert (Hnil : add_trackings i [] t = t).
  { unfold add_trackings. cbn. rewrite app_nil_r. now destruct t. }
  assert (Hskip : exists r w' t', ret tt w = (r, w') /\
    committed w' = committed w /\ order_seq w' = order_seq w /\
    working w' = Some t' /\
    (r = Normal tt /\ t' = add_trackings i [] t)).
  { exists (Normal tt), w, t. cbn. rewrite Hnil. auto 10. }
  assert (Hloop : forall items,
    exists r w' t',
      for_each items (Ledger.insert_track E (JNum (of_Z i))) w = (r, w') /\
      committed w' = committed w /\ order_seq w' = order_seq w /\
      working w' = Some t' /\
      if loop_accepts E i t items
      then r = Normal tt /\ t' = add_trackings i items t
      else (exists msg, r = Throw msg) /\ orders t' = orders t).
  { intros items.
    destruct (insert_loop E i items w t Hw)
      as (r & w' & t' & Hrun & H1 & H2 & _ & H4 & H5 & H6).
    exists r, w', t'. repeat (split; [assumption|]).
    destruct (loop_accepts E i t items); auto. }
  destruct v as [| |b|n|s|items|fields]; cbn [walked loop_accepts].
  - exact Hskip.
  - exact Hskip.
  - destruct b; exact Hskip.
  - destruct (truthy (JNum n)); exact Hskip.
  - destruct s as [|c s]; [exact Hskip|].
    cbn [truthy String.eqb negb get_length]. unfold bind, lift, ret.
    rewrite js_gt0_of_Z.
    replace (0 <? Z.of_nat (String.length (String c s))) with true
      by (symmetry; apply Z.ltb_lt; cbn [String.length]; lia).
    cbn [iterate]. apply Hloop.
  - cbn [truthy get_length]. unfold bind, lift, ret.
    rewrite js_gt0_of_Z.
    destruct items as [|x rest]; [exact Hskip|].
    replace (0 <? Z.of_nat (Datatypes.length (x :: rest))) with true
      by (symmetry; apply Z.ltb_lt; cbn [Datatypes.length]; lia).
    cbn [iterate]. apply Hloop.
  - cbn [truthy get_length get_prop]. unfold bind, lift, ret.
    destruct (js_gt0 (lookup "length" fields)); [|exact Hskip].
    cbn [iterate]. exists (Throw "trackings is not iterable"), w, t. auto 10.
Qed.

Lemma post_orders_walk (E : Env) (fields : list (string * JsVal)) (w : World) :
  working w = None ->
  rejects E (committed w) Begin = None ->
  rejects E (committed w) (order_insert E fields) = None ->
  let t := add_order (order_of E (order_seq w) fields) (committed w) in
  exists resp w',
    Ledger.handle E (create_request fields) w = (Normal resp, w') /\
    match walked (lookup "trackings" fields) with
    | Some items =>
        if loop_accepts E (order_seq w) t items &&
           is_none (rejects E (add_trackings (order_seq w) items t) Commit)
        then resp = created (order_seq w) /\
             committed w' = add_trackings (order_seq w) items t
        else (exists msg, resp = json 500 (Ledger.error_body msg)) /\
             committed w' = committed w
    | None =>
        resp = json 500 (Ledger.error_body "trackings is not iterable") /\
        committed w' = committed w
    end.
Proof.
  intros Hw HB HI t. rewrite handle_create.
  unfold Ledger.post_orders, create_request. cbn [body].
  cbv beta iota delta [bind try_catch try_finally pool_connect client_release emit ret].
  rewrite exec_begin by exact Hw.
  cbn [logged committed working order_seq log]. rewrite HB.
  match goal with |- context [Ledger.resolve_rate E ?c ?r ?w0] =>
    destruct (resolve_rate_run E c r w0) as (w1 & Hrate & Hc1 & Hw1 & Hs1 & _) end.
  rewrite Hrate.
  cbn [logged working committed order_seq log] in Hc1, Hw1, Hs1.
  rewrite (exec_in_txn _ _ w1 _ Hw1) by reflexivity.
  fold (order_insert E fields). rewrite HI.
  unfold order_insert at 1. cbn [run].
  fold (order_of E (order_seq w1) fields). rewrite Hs1.
  set (o := order_of E (order_seq w) fields) in *.
  replace (get_prop (nth 0 [JObj (project ["id"; "exchange_rate"] (order_columns o))] JUndefined) "id")
    with (Normal (JNum (of_Z (order_seq w)))) by reflexivity.
  cbv beta iota delta [lift].
  match goal with |- context [Ledger.insert_trackings E _ ?v ?w2] =>
    destruct (insert_trackings_walk E (order_seq w) v w2 (add_order o (committed w)) eq_refl)
      as (r & w3 & t3 & Hrun & Hc3 & Hs3 & Hw3 & Hcase) end.
  rewrite Hrun.
  cbn [logged working committed order_seq log] in Hc3, Hs3.
  fold t in Hcase.
  destruct (walked (lookup "trackings" fields)) as [items|].
  - destruct (loop_accepts E (order_seq w) t items).
    + destruct Hcase as [-> ->]. cbn [andb].
      rewrite (exec_commit _ w3 _ Hw3).
      destruct (rejects E (add_trackings (order_seq w) items t) Commit).
      * rewrite exec_rollback. eexists _, _. split; [reflexivity|].
        cbn. split; [eauto|congruence].
      * eexists _, _. split; [reflexivity|]. cbn. auto.
    + destruct Hcase as [[msg ->] _]. cbn [andb].
      rewrite exec_rollback. eexists _, _. split; [reflexivity|].
      cbn. split; [eauto|congruence].
  - destruct Hcase as [-> ->].
    rewrite exec_rollback. eexists _, _. split; [reflexivity|].
    cbn. split; [reflexivity|congruence].
Qed.

Lemma chars_rows (i : Z) (s : string) :
  map (tracking_of i) (chars s)
  = repeat (new_tracking i JNull JNull) (String.length s).
Proof.
  induction s as [|c s IH]; [reflexivity|].
  cbn [chars map String.length repeat]. now rewrite IH.
Qed.

(** X17.  In the first registration a [trackings] that is a text is walked
    character by character: when the store takes the statements, the order
    is created with one tracking row per (one-byte) character, each with a
    NULL number and a NULL carrier. *)
Theorem text_trackings_become_null_rows (E : Env) (w : World)
        (fields : list (string * JsVal)) (s : string) :
  working w = None ->
  lookup "trackings" fields = JStr s ->
  create_accepted E (committed w) (order_seq w) fields (chars s) = true ->
  exists w',
    Ledger.handle E (create_request fields) w
      = (Normal (created (order_seq w)), w') /\
    trackings (committed w')
      = (trackings (committed w)
         ++ repeat (new_tracking (order_seq w) JNull JNull) (String.length s))%list.
Proof.
  intros Hw Htr Hacc. unfold create_accepted in Hacc.
  apply andb_prop in Hacc as [Hacc HC]. apply andb_prop in Hacc as [Hacc HL].
  apply andb_prop in Hacc as [HB HI].
  destruct (rejects E (committed w) Begin) eqn:HB'; [discriminate|].
  destruct (rejects E (committed w) (order_insert E fields)) eqn:HI';
    [discriminate|].
  destruct (post_orders_walk E fields w Hw HB' HI') as (resp & w' & Hrun & Hcase).
  rewrite Htr in Hcase. cbn [walked] in Hcase. rewrite HL, HC in Hcase.
  destruct Hcase as [-> Hc]. exists w'. split; [exact Hrun|].
  rewrite Hc. cbn [add_trackings trackings add_order]. now rewrite chars_rows.
Qed.

Lemma text_trackings_become_null_rows_witness :
  exists w',
    Ledger.handle offline
      (create_request (hnl_order ++ [("trackings", JStr "1Z9")])) empty_world
      = (Normal (created 1), w') /\
    trackings (committed w')
      = [new_tracking 1 JNull JNull; new_tracking 1 JNull JNull;
         new_tracking 1 JNull JNull].
Proof.
  apply (text_trackings_become_null_rows offline empty_world
           (hnl_order ++ [("trackings", JStr "1Z9")]) "1Z9" eq_refl eq_refl eq_refl).
Defined.

(** X18.  In the first registration a [trackings] that is an object with a
    positive [length] cannot be iterated: once BEGIN and the INSERT of the
    order went through, the request is answered 500 with "trackings is not
    iterable" and the order row is rolled back. *)
Theorem object_trackings_roll_back (E : Env) (w : World)
        (fields ofields : list (string * JsVal)) :
  working w = None ->
  lookup "trackings" fields = JObj ofields ->
  js_gt0 (lookup "length" ofields) = true ->
  rejects E (committed w) Begin = None ->
  rejects E (committed w) (order_insert E fields) = None ->
  exists w',
    Ledger.handle E (create_request fields) w
      = (Normal (json 500 (Ledger.error_body "trackings is not iterable")), w') /\
    committed w' = committed w.
Proof.
  intros Hw Htr Hlen HB HI.
  destruct (post_orders_walk E fields w Hw HB HI) as (resp & w' & Hrun & Hcase).
  rewrite Htr in Hcase. cbn [walked] in Hcase. rewrite Hlen in Hcase.
  destruct Hcase as [-> Hc]. exists w'. split; [exact Hrun|exact Hc].
Qed.

Lemma object_trackings_roll_back_witness :
  exists w',
    Ledger.handle offline
      (create_request (hnl_order ++ [("trackings", JObj [("length", JNum (of_Z 2))])]))
      two_orders_world
      = (Normal (json 500 (Ledger.error_body "trackings is not iterable")), w') /\
    committed w' = committed two_orders_world.
Proof.
  apply (object_trackings_roll_back offline two_orders_world
           (hnl_order ++ [("trackings", JObj [("length", JNum (of_Z 2))])])
           [("length", JNum (of_Z 2))] eq_refl eq_refl eq_refl eq_refl eq_refl).
Defined.

(** X19.  In the first registration a [trackings] that is a number or a
    boolean is ignored: the order is created and no tracking row is
    added. *)
Theorem scalar_trackings_are_ignored (E : Env) (w : World)
        (fields : list (string * JsVal)) :
  working w = None ->
  (exists n, lookup "trackings" fields = JNum n) \/
  (exists b, lookup "trackings" fields = JBool b) ->
  rejects E (committed w) Begin = None ->
  rejects E (committed w) (order_insert E fields) = None ->
  rejects E (add_order (order_of E (order_seq w) fields) (committed w)) Commit
    = None ->
  exists w',
    Ledger.handle E (create_request fields) w
      = (Normal (created (order_seq w)), w') /\
    trackings (committed w') = trackings (committed w) /\
    orders (committed w')
      = (orders (committed w) ++ [order_of E (order_seq w) fields])%list.
Proof.
  intros Hw Htr HB HI HC.
  destruct (post_orders_walk E fields w Hw HB HI) as (resp & w' & Hrun & Hcase).
  assert (Hwalk : walked (lookup "trackings" fields) = Some []).
  { destruct Htr as [[n ->] | [b ->]]; reflexivity. }
  rewrite Hwalk in Hcase. cbn [loop_accepts andb] in Hcase.
  assert (Hnil : forall t, add_trackings (order_seq w) [] t = t).
  { intros t. unfold add_trackings. cbn. rewrite app_nil_r. now destruct t. }
  rewrite Hnil, HC in Hcase. cbn [is_none] in Hcase.
  destruct Hcase as [-> Hc]. exists w'. split; [exact Hrun|].
  rewrite Hc. split; reflexivity.
Qed.

Lemma scalar_trackings_are_ignored_witness :
  exists w',
    Ledger.handle offline
      (create_request (hnl_order ++ [("trackings", JNum (of_Z 7))])) empty_world
      = (Normal (created 1), w') /\
    trackings (committed w') = [].
Proof.
  destruct (scalar_trackings_are_ignored offline empty_world
              (hnl_order ++ [("trackings", JNum (of_Z 7))]) eq_refl
              (or_introl (ex_intro _ (of_Z 7) eq_refl)) eq_refl eq_refl eq_refl)
    as (w' & Hrun & Htr & _).
  exists w'. split; [exact Hrun|exact Htr].
Defined.


(** ** A creation in USD priced by the rate service *)




(** ** The create route of the variant *)

(** X21.  The create route of the simplified variant ignores what the body
    says about currency and rate: a successful request adds one order with
    currency 'HNL' and rate 1, and its answer carries no order id; a failed
    one adds nothing. *)
Theorem variant_create_forces_lempiras (E : Env) (w : World)
        (fields : list (string * JsVal)) :
  working w = None ->
  exists resp w',
    Lempiras.handle E (create_request fields) w = (Normal resp, w') /\
    ((resp = json 200 (Ledger.success "Pedido guardado") /\
      field (payload resp) "orderId" = JUndefined /\
      exists o, orders (committed w') = (orders (committed w) ++ [o])%list /\
                id o = order_seq w /\
                currency o = JStr "HNL" /\ exchange_rate o = JNum (of_Z 1) /\
                purchase_date o = param (lookup "purchase_date" fields) /\
                original_amount o = param (lookup "original_amount" fields))
     \/
     ((exists msg, resp = json 500 (Ledger.error_body msg)) /\
      committed w' = committed w)).
Proof.
  intros Hw.
  destruct (lempiras_post_orders_outcome E fields w Hw)
    as (resp & w' & Hrun & _ & _ & Hcase & _).
  exists resp, w'. split; [exact Hrun|].
  destruct Hcase as [(-> & Hord) | Hfail]; [left|now right].
  split; [reflexivity|]. split; [reflexivity|].
  eexists. split; [exact Hord|]. repeat split.
Qed.

Lemma variant_create_forces_lempiras_witness :
  exists resp w',
    Lempiras.handle offline (create_request example_order) empty_world
      = (Normal resp, w') /\
    map currency (orders (committed w')) = [JStr "HNL"].
Proof.
  destruct (variant_create_forces_lempiras offline empty_world example_order eq_refl)
    as (resp & w' & Hrun & _).
  exists resp, w'. split; [exact Hrun|].
  cbn in Hrun. injection Hrun as _ <-. reflexivity.
Defined.

(** ** The second registration of POST /api/orders *)

Lemma dispatch_shadowed (r r' : Route) (req : Request) :
  r_method r' = r_method r -> r_path r' = r_path r ->
  forall mid post,
    dispatch (r :: mid ++ r' :: post) req = dispatch (r :: mid ++ post) req.
Proof.
  intros Hm Hp mid post. cbn [dispatch].
  destruct (method_eqb (r_method r) (method req)) eqn:Hmeth.
  - destruct (match_path (r_path r) (path req)) eqn:Hpath; [reflexivity|].
    induction mid as [|x mid IH]; cbn [app dispatch].
    + now rewrite Hm, Hp, Hmeth, Hpath.
    + now rewrite IH.
  - induction mid as [|x mid IH]; cbn [app dispatch].
    + now rewrite Hm, Hmeth.
    + now rewrite IH.
Qed.

Lemma dispatch_cons (r : Route) (l l' : list Route) (req : Request) :
  dispatch l req = dispatch l' req ->
  dispatch (r :: l) req = dispatch (r :: l') req.
Proof. intros H. cbn [dispatch]. now rewrite H. Qed.

(** X22.  The second registration of POST /api/orders is never run: every
    request is handled exactly as by the route list without it. *)
Theorem second_registration_is_never_run (E : Env) (req : Request) :
  Ledger.handle E req = dispatch (app_without_second E) req.
Proof.
  unfold Ledger.handle, app_without_second, Ledger.app.
  cbn [firstn skipn app].
  apply dispatch_cons.
  match goal with
  | |- dispatch (?r :: ?x :: ?r' :: ?post) req = _ =>
      exact (dispatch_shadowed r r' req eq_refl eq_refl [x] post)
  end.
Qed.


Lemma second_loop (E : Env) (o : OrderRow) (items : list JsVal) :
  forall body : JsVal -> M unit,
  (forall track w,
     body track w =
     (orderId <- lift (get_prop (JObj (project ["id"; "original_amount"; "exchange_rate"]
                                               (order_columns o))) "id") ;;
      number <- lift (get_prop track "tracking_number") ;;
      carrier <- lift (get_prop track "carrier") ;;
      exec E (InsertTracking orderId number (js_or carrier (JStr "Desconocido"))) ;;
      ret tt) w) ->
  forall w t,
  working w = Some t ->
  exists r w' t', for_each items body w = (r, w') /\
    committed w' = committed w /\ order_seq w' = order_seq w /\
    working w' = Some t' /\
    if loop_accepts_second E (id o) t items
    then r = Normal tt /\ t' = add_trackings_second (id o) items t
    else (exists msg, r = Throw msg) /\ orders t' = orders t.
Proof.
  intros body Hbody.
  induction items as [|x rest IH]; intros w t Hw.
  - exists (Normal tt), w, t. cbn. unfold add_trackings_second. cbn.
    rewrite app_nil_r. destruct t; cbn in *; auto 10.
  - cbn [for_each loop_accepts_second]. unfold bind at 1. rewrite Hbody.
    replace (get_prop (JObj (project ["id"; "original_amount"; "exchange_rate"]
                                     (order_columns o))) "id")
      with (Normal (JNum (of_Z (id o)))) by reflexivity.
    unfold bind at 1. unfold lift at 1.
    destruct (readable x) eqn:Hr.
    + assert (Hn : get_prop x "tracking_number" = Normal (field x "tracking_number"))
        by (destruct x; try discriminate Hr; reflexivity).
      assert (Hc : get_prop x "carrier" = Normal (field x "carrier"))
        by (destruct x; try discriminate Hr; reflexivity).
      rewrite Hn, Hc. unfold bind at 1 2 3. unfold lift.
      rewrite (exec_in_txn _ _ w t Hw) by reflexivity.
      fold (tracking_insert_second (id o) x).
      destruct (rejects E t (tracking_insert_second (id o) x)) eqn:Hrej.
      * cbn. eexists _, _, t. split; [reflexivity|]. cbn. eauto 10.
      * unfold tracking_insert_second, run, with_int. rewrite int_param_of_Z.
        cbn [andb is_none ret].
        fold (tracking_of_second (id o) x).
        match goal with |- context [for_each rest body ?w1] =>
          destruct (IH w1 (add_tracking (tracking_of_second (id o) x) t) eq_refl)
            as (r & w' & t' & Hrun & H1 & H2 & H3 & Hcase) end.
        exists r, w', t'. split; [exact Hrun|].
        cbn in H1, H2. repeat (split; [assumption|]).
        destruct (loop_accepts_second E (id o) _ rest); [|exact Hcase].
        destruct Hcase as [-> ->]. split; [reflexivity|].
        unfold add_trackings_second, add_tracking. cbn. now rewrite <- app_assoc.
    + assert (Hn : exists msg, get_prop x "tracking_number" = Throw msg)
        by (destruct x; try discriminate Hr; eexists; reflexivity).
      destruct Hn as [msg Hn]. rewrite Hn. unfold bind, lift.
      cbn [andb]. exists (Throw msg), w, t. eauto 10.
Qed.

Lemma insert_trackings_second_outcome (E : Env) (o : OrderRow) (v : JsVal)
      (w : World) (t : Tables) :
  working w = Some t ->
  exists r w' t',
    Ledger.insert_trackings_second E
      (JObj (project ["id"; "original_amount"; "exchange_rate"] (order_columns o)))
      v w = (r, w') /\
    committed w' = committed w /\ order_seq w' = order_seq w /\
    working w' = Some t' /\
    if loop_accepts_second E (id o) t (array_items v)
    then r = Normal tt /\ t' = add_trackings_second (id o) (array_items v) t
    else (exists msg, r = Throw msg) /\ orders t' = orders t.
Proof.
  intros Hw. unfold Ledger.insert_trackings_second.
  assert (Hskip : exists r w' t', ret tt w = (r, w') /\
    committed w' = committed w /\ order_seq w' = order_seq w /\
    working w' = Some t' /\
    (r = Normal tt /\ t' = add_trackings_second (id o) [] t)).
  { exists (Normal tt), w, t. cbn. unfold add_trackings_second. cbn.
    rewrite app_nil_r. destruct t; auto 10. }
  destruct v as [| |b|n|s|items|fields]; cbn [array_items loop_accepts_second].
  - exact Hskip.
  - exact Hskip.
  - destruct b; exact Hskip.
  - cbn [is_array]. rewrite andb_false_r. exact Hskip.
  - cbn [is_array]. rewrite andb_false_r. exact Hskip.
  - cbn [truthy is_array andb get_length]. unfold bind at 1 2. unfold lift, ret.
    rewrite js_gt0_of_Z.
    destruct items as [|x rest]; [exact Hskip|].
    replace (0 <? Z.of_nat (Datatypes.length (x :: rest))) with true
      by (symmetry; apply Z.ltb_lt; cbn [Datatypes.length]; lia).
    unfold bind at 1. cbn [iterate].
    apply second_loop; [|exact Hw].
    intros track w0. reflexivity.
  - exact Hskip.
Qed.

Lemma post_orders_second_outcome (E : Env) (fields : list (string * JsVal))
      (w : World) :
  working w = None ->
  truthy (lookup "purchase_date" fields) = true ->
  truthy (lookup "original_amount" fields) = true ->
  let i := order_seq w in
  let o := order_of_second E i fields in
  let items := array_items (lookup "trackings" fields) in
  exists resp w',
    Ledger.post_orders_second E (create_request fields) w = (Normal resp, w') /\
    working w' = None /\
    if is_none (rejects E (committed w) Begin) &&
       is_none (rejects E (committed w) (order_insert_second E fields)) &&
       loop_accepts_second E i (add_order o (committed w)) items &&
       is_none (rejects E (add_trackings_second i items (add_order o (committed w)))
                        Commit)
    then resp = created_second o /\
         committed w' = add_trackings_second i items (add_order o (committed w))
    else (exists msg,
            resp = json 500 (JObj [("error", JStr "Error interno del servidor");
                                   ("details", JStr msg)])) /\
         committed w' = committed w.
Proof.
  intros Hw Hd Ha i o items. subst i.
  unfold Ledger.post_orders_second, create_request. cbn [body].
  rewrite Hd, Ha. cbn [negb orb].
  cbv beta iota delta [bind try_catch try_finally pool_connect client_release
                       emit ret console_error].
  rewrite exec_begin by exact Hw.
  cbn [logged committed working order_seq log].
  destruct (rejects E (committed w) Begin) eqn:HB.
  { rewrite exec_rollback. eexists _, _. split; [reflexivity|].
    cbn. split; [reflexivity|]. split; [eauto|reflexivity]. }
  cbn [is_none andb].
  assert (Hrate : exists w1,
    (if strict_eq_str (lookup "currency" fields) "USD"
     then Ledger.getDollarRate E
     else fun w0 => (Normal (JNum (of_Z 1)), w0))
      {| committed := committed w; working := Some (committed w);
         order_seq := order_seq w;
         log := ((log w ++ [EvConnect]) ++ [EvSql Begin])%list |}
    = (Normal (rate_of_second E (lookup "currency" fields)), w1) /\
    committed w1 = committed w /\ working w1 = Some (committed w) /\
    order_seq w1 = order_seq w).
  { unfold rate_of_second.
    destruct (strict_eq_str (lookup "currency" fields) "USD").
    - match goal with |- context [Ledger.getDollarRate E ?w0] =>
        destruct (getDollarRate_run E w0) as (w1 & Hrun & H1 & H2 & H3 & _) end.
      exists w1. auto.
    - eexists. split; [reflexivity|]. auto. }
  destruct Hrate as (w1 & Hrate & Hc1 & Hw1 & Hs1).
  rewrite Hrate.
  rewrite (exec_in_txn _ _ w1 _ Hw1) by reflexivity.
  fold (order_insert_second E fields).
  destruct (rejects E (committed w) (order_insert_second E fields)) eqn:HI.
  { rewrite exec_rollback. eexists _, _. split; [reflexivity|].
    cbn. split; [reflexivity|]. split; [eauto|exact Hc1]. }
  cbn [is_none andb].
  unfold order_insert_second at 1. cbn [run].
  fold (order_of_second E (order_seq w1) fields). rewrite Hs1. fold o.
  cbn [nth].
  match goal with |- context [Ledger.insert_trackings_second E _ ?v ?w2] =>
    destruct (insert_trackings_second_outcome E o v w2 (add_order o (committed w)) eq_refl)
      as (r & w3 & t3 & Hrun & Hc3 & Hs3 & Hw3 & Hcase) end.
  rewrite Hrun. fold items in Hcase.
  cbn [logged working committed order_seq log] in Hc3, Hs3.
  change (id o) with (order_seq w) in Hcase.
  destruct (loop_accepts_second E (order_seq w) (add_order o (committed w)) items).
  - destruct Hcase as [-> ->]. cbn [andb].
    rewrite (exec_commit _ w3 _ Hw3).
    destruct (rejects E (add_trackings_second (order_seq w) items
                           (add_order o (committed w))) Commit).
    + rewrite exec_rollback. eexists _, _. split; [reflexivity|].
      cbn. split; [reflexivity|]. split; [eauto|congruence].
    + cbn [is_none].
      eexists _, _. split; [reflexivity|]. cbn. split; [reflexivity|].
      split; reflexivity.
  - destruct Hcase as [[msg ->] _]. cbn [andb].
    rewrite exec_rollback. eexists _, _. split; [reflexivity|].
    cbn. split; [reflexivity|]. split; [eauto|congruence].
Qed.



(** X23.  The second registration, run on its own, answers 400 exactly when
    [purchase_date] or [original_amount] is falsy (so also for an amount of
    0 or an empty date), and then touches nothing: no connection, no
    statement. *)
Theorem second_registration_checks_fields (E : Env) (w : World)
        (fields : list (string * JsVal)) :
  working w = None ->
  exists resp w',
    Ledger.post_orders_second E (create_request fields) w = (Normal resp, w') /\
    (status resp = 400%nat <->
     truthy (lookup "purchase_date" fields) = false \/
     truthy (lookup "original_amount" fields) = false) /\
    (status resp = 400%nat ->
     w' = w /\
     resp = json 400 (Ledger.error_body "Faltan datos obligatorios (fecha o monto)")).
Proof.
  intros Hw.
  destruct (truthy (lookup "purchase_date" fields)) eqn:Hd;
    [destruct (truthy (lookup "original_amount" fields)) eqn:Ha|].
  - destruct (post_orders_second_outcome E fields w Hw Hd Ha)
      as (resp & w' & Hrun & _ & Hcase).
    exists resp, w'. split; [exact Hrun|].
    assert (Hst : status resp <> 400%nat).
    { destruct (_ && _) in Hcase.
      - destruct Hcase as [-> _]. discriminate.
      - destruct Hcase as [[msg ->] _]. discriminate. }
    split; [|intros H; contradiction].
    split; [intros H; contradiction|]. intros [H | H]; discriminate.
  - rewrite second_registration_validates by (right; exact Ha).
    eexists _, _. split; [reflexivity|]. cbn. split; [|auto].
    split; auto.
  - rewrite second_registration_validates by (left; exact Hd).
    eexists _, _. split; [reflexivity|]. cbn. split; [|auto].
    split; auto.
Qed.

Lemma second_registration_checks_fields_witness :
  Ledger.post_orders_second offline
    (create_request [("purchase_date", JStr "2024-01-01");
                     ("original_amount", JNum (of_Z 0))]) empty_world
  = (Normal (json 400 (Ledger.error_body "Faltan datos obligatorios (fecha o monto)")),
     empty_world).
Proof.
  destruct (second_registration_checks_fields offline empty_world
              [("purchase_date", JStr "2024-01-01");
               ("original_amount", JNum (of_Z 0))] eq_refl)
    as (resp & w' & Hrun & Hiff & Hsame).
  rewrite Hrun.
  destruct (Hsame (proj2 Hiff (or_intror eq_refl))) as [-> ->]. reflexivity.
Defined.



End Extras.
